(** * interview_engine.py: questions, feedback and the interview session

    A shallow embedding of [src/interview_engine.py].  Python [str] values
    are sequences of Unicode code points, the generation backend ([MODEL])
    is an optional oracle from prompts to a response text or a raised
    exception, and the [while] loop of [_clean_list_from_text] is run on
    fuel, because it does not terminate on every line. *)

From Stdlib Require Import String Ascii DecimalString.
From Stdlib Require DecimalPos.
From Stdlib Require Import ZArith NArith List Bool Lia.
Import ListNotations.

Open Scope Z_scope.

(** ** Python strings and the built-ins the engine uses *)

Module Py.

(** A character is its Unicode code point; a [str] is a sequence of them. *)
Definition char := N.
Definition str := list char.

(** The source's string literals are all ASCII. *)
Definition lit (s : string) : str := map N_of_ascii (list_ascii_of_string s).

Definition NL : str := [10%N].
Definition DQUOTE : str := [34%N].

Fixpoint in_ranges (c : char) (t : list (N * N)) : bool :=
  match t with
  | [] => false
  | (lo, hi) :: t' => ((lo <=? c) && (c <=? hi))%N || in_ranges c t'
  end.

(** [str.isspace] on one character (CPython's [_PyUnicode_IsWhitespace]). *)
Definition SPACE_RANGES : list (N * N) :=
  [(9, 13); (28, 32); (133, 133); (160, 160); (5760, 5760); (8192, 8202);
   (8232, 8233); (8239, 8239); (8287, 8287); (12288, 12288)]%N.

Definition isspace (c : char) : bool := in_ranges c SPACE_RANGES.

(** [str.isdigit] on one character: the code points whose Numeric_Type is
    Decimal or Digit (Unicode 14.0, the table of CPython 3.11).  Besides
    the ASCII digits it holds superscripts, circled digits and the decimal
    digits of other scripts. *)
Definition DIGIT_RANGES : list (N * N) :=
  [(48, 57); (178, 179); (185, 185); (1632, 1641); (1776, 1785);
   (1984, 1993); (2406, 2415); (2534, 2543); (2662, 2671); (2790, 2799);
   (2918, 2927); (3046, 3055); (3174, 3183); (3302, 3311); (3430, 3439);
   (3558, 3567); (3664, 3673); (3792, 3801); (3872, 3881); (4160, 4169);
   (4240, 4249); (4969, 4977); (6112, 6121); (6160, 6169); (6470, 6479);
   (6608, 6618); (6784, 6793); (6800, 6809); (6992, 7001); (7088, 7097);
   (7232, 7241); (7248, 7257); (8304, 8304); (8308, 8313); (8320, 8329);
   (9312, 9320); (9332, 9340); (9352, 9360); (9450, 9450); (9461, 9469);
   (9471, 9471); (10102, 10110); (10112, 10120); (10122, 10130);
   (42528, 42537); (43216, 43225); (43264, 43273); (43472, 43481);
   (43504, 43513); (43600, 43609); (44016, 44025); (65296, 65305);
   (66720, 66729); (68160, 68163); (68912, 68921); (69216, 69224);
   (69714, 69722); (69734, 69743); (69872, 69881); (69942, 69951);
   (70096, 70105); (70384, 70393); (70736, 70745); (70864, 70873);
   (71248, 71257); (71360, 71369); (71472, 71481); (71904, 71913);
   (72016, 72025); (72784, 72793); (73040, 73049); (73120, 73129);
   (92768, 92777); (92864, 92873); (93008, 93017); (120782, 120831);
   (123200, 123209); (123632, 123641); (125264, 125273); (127232, 127242);
   (130032, 130041)]%N.

Definition isdigit (c : char) : bool := in_ranges c DIGIT_RANGES.

(** The line boundaries of [str.splitlines]. *)
Definition is_linebreak (c : char) : bool :=
  existsb (N.eqb c) [10; 11; 12; 13; 28; 29; 30; 133; 8232; 8233]%N.

(** [c in chars] for a single character [c]. *)
Definition char_in (c : char) (chars : str) : bool := existsb (N.eqb c) chars.

Fixpoint drop_while (p : char -> bool) (s : str) : str :=
  match s with
  | [] => []
  | c :: s' => if p c then drop_while p s' else s
  end.

(** [s.lstrip(chars)], [s.lstrip()], [s.rstrip()] and [s.strip()]. *)
Definition lstrip_chars (chars s : str) : str :=
  drop_while (fun c => char_in c chars) s.

Definition lstrip (s : str) : str := drop_while isspace s.

Definition rstrip (s : str) : str := rev (drop_while isspace (rev s)).

Definition strip (s : str) : str := rstrip (lstrip s).

(** [s.splitlines()]: [cur] is the line being read, [after_cr] tells that
    the previous character was a carriage return, whose line feed belongs to
    the same boundary.  A last line is produced only when it is not empty. *)
Fixpoint splitlines_from (after_cr : bool) (cur s : str) : list str :=
  match s with
  | [] => match cur with [] => [] | _ => [cur] end
  | c :: rest =>
      if after_cr && (c =? 10)%N then splitlines_from false cur rest
      else if is_linebreak c then cur :: splitlines_from (c =? 13)%N [] rest
      else splitlines_from false (cur ++ [c]) rest
  end.

Definition splitlines (s : str) : list str := splitlines_from false [] s.

(** [sep.join(parts)]. *)
Fixpoint join (sep : str) (parts : list str) : str :=
  match parts with
  | [] => []
  | [p] => p
  | p :: ps => p ++ sep ++ join sep ps
  end.

(** [str(n)] and the [{n}] of an f-string, for an [int] of at most 4300
    digits; CPython 3.11 raises ValueError on a longer one (see
    [Raising.printable]). *)
Definition str_of_int (n : Z) : str := lit (NilZero.string_of_int (Z.to_int n)).

(** Truth value of a string or list: empty is false. *)
Definition truthy {A} (l : list A) : bool :=
  match l with [] => false | _ => true end.

Definition len {A} (l : list A) : Z := Z.of_nat (length l).

Fixpoint str_eqb (a b : str) : bool :=
  match a, b with
  | [], [] => true
  | x :: a', y :: b' => (x =? y)%N && str_eqb a' b'
  | _, _ => false
  end.

(** [q in l] for a list of strings. *)
Definition str_in (q : str) (l : list str) : bool := existsb (str_eqb q) l.

(** [l[:n]]: a negative [n] counts from the end. *)
Definition slice_to {A} (l : list A) (n : Z) : list A :=
  if n <? 0 then firstn (Z.to_nat (len l + n)) l else firstn (Z.to_nat n) l.

(** [l[i]]: a negative [i] counts from the end; [None] is IndexError. *)
Definition getitem {A} (l : list A) (i : Z) : option A :=
  if i <? 0
  then if len l + i <? 0 then None else nth_error l (Z.to_nat (len l + i))
  else nth_error l (Z.to_nat i).

End Py.

Import Py.

(** ** The generation backend *)

(** What [MODEL.generate_content(prompt)] followed by [resp.text] comes to:
    a text (or [None]), or an exception that [except Exception] catches, of
    which the engine only uses the message [str(e)].  The exceptions that
    are no instances of [Exception] are in [Raising], further down. *)
Inductive response :=
| Text (text : option str)
| Raises (e : str).

Definition backend := str -> response.

(** The result of an engine call together with the prompts it sent to the
    backend, in order. *)
Record run (A : Type) := Run { sent : list str; value : A }.
Arguments Run {A} _ _.
Arguments sent {A} _.
Arguments value {A} _.

(** ** Fallback data *)

Definition FALLBACK_QUESTIONS : list str :=
  [ lit "Why should we hire you?";
    lit "Tell me about yourself.";
    lit "What are your strengths?";
    lit "What are your weaknesses?";
    lit "Where do you see yourself in 5 years?";
    lit "Why do you want to work here?";
    lit "Tell me about a challenge you faced at work.";
    lit "How do you handle pressure?";
    lit "What motivates you?";
    lit "Do you have any questions for us?" ].

(** ** _clean_list_from_text *)

Definition MARKER_CHARS : str := lit "0123456789. )-*" ++ [9%N].

(** The guard of the [while] loop: [ln and (ln[0].isdigit() or ln[0] in "-*")]. *)
Definition has_leading_marker (ln : str) : bool :=
  match ln with
  | [] => false
  | c :: _ => isdigit c || char_in c (lit "-*")
  end.

(** One pass of the loop body. *)
Definition strip_markers_once (ln : str) : str := strip (lstrip_chars MARKER_CHARS ln).

(** The [while] loop on one line; [None] when the fuel runs out. *)
Fixpoint strip_markers (fuel : nat) (ln : str) {struct fuel} : option str :=
  if has_leading_marker ln then
    match fuel with
    | O => None
    | S fuel' => strip_markers fuel' (strip_markers_once ln)
    end
  else Some ln.

(** The [for] loop, appending to [cleaned]. *)
Fixpoint clean_lines (fuel : nat) (lines cleaned : list str) : option (list str) :=
  match lines with
  | [] => Some cleaned
  | ln :: rest =>
      match strip_markers fuel ln with
      | None => None
      | Some ln' => clean_lines fuel rest (if truthy ln' then cleaned ++ [ln'] else cleaned)
      end
  end.

(** [[ln.strip() for ln in text.splitlines() if ln.strip()]]. *)
Definition stripped_lines (text : str) : list str :=
  map strip (filter (fun ln => truthy (strip ln)) (splitlines text)).

Definition _clean_list_from_text (fuel : nat) (text : str) : option (list str) :=
  clean_lines fuel (stripped_lines text) [].

(** ** generate_questions *)

Definition PLEASE_PROVIDE : str := lit "Please provide a job title.".

Definition questions_prompt (job_title : str) (n_questions : Z) : str :=
  lit "You are an expert interview coach. Generate " ++ str_of_int n_questions
  ++ lit " clear, concise interview "
  ++ lit "questions for a candidate applying for the role: " ++ DQUOTE ++ job_title
  ++ DQUOTE ++ lit ". "
  ++ lit "Return a numbered list, one question per line. Do not add extra commentary.".

(** [text = (resp.text or "").strip()]. *)
Definition response_text (t : option str) : str :=
  strip (match t with Some s => s | None => [] end).

(** The value is [None] when the call does not return. *)
Definition generate_questions (fuel : nat) (MODEL : option backend)
    (job_title : str) (n_questions : Z) : run (option (list str)) :=
  if negb (truthy job_title) then Run [] (Some [PLEASE_PROVIDE])
  else
    match MODEL with
    | None => Run [] (Some (slice_to FALLBACK_QUESTIONS n_questions))
    | Some model =>
        let prompt := questions_prompt job_title n_questions in
        Run [prompt]
          match model prompt with
          | Text t =>
              match _clean_list_from_text fuel (response_text t) with
              | None => None
              | Some questions =>
                  let questions :=
                    if len questions <? n_questions
                    then slice_to
                           (questions
                            ++ filter (fun q => negb (str_in q questions)) FALLBACK_QUESTIONS)
                           n_questions
                    else questions in
                  Some (slice_to questions n_questions)
              end
          | Raises e =>
              Some ((lit "Error generating questions: " ++ e)
                    :: slice_to FALLBACK_QUESTIONS (Z.max 0 (n_questions - 1)))
          end
    end.

(** ** get_feedback_on_answer *)

Definition NO_ANSWER : str :=
  lit "No answer provided. Please write your response before requesting feedback.".

Definition LOW_FEEDBACK : list str :=
  [ lit "1) Score: 40/100";
    lit "2) Strength: You tried to answer quickly.";
    lit "3) Improve: Add one concrete example (what you did).";
    lit "4) Improve: Add the result (what changed because of your action).";
    lit "5) Model answer (example): I led X project where I did Y and achieved Z." ].

Definition HIGH_FEEDBACK : list str :=
  [ lit "1) Score: 75/100";
    lit "2) Strength: Clear structure and some example included.";
    lit "3) Improve: Be more specific about numbers or results.";
    lit "4) Improve: Add one short sentence about learning from the experience.";
    lit "5) Model answer (example): I improved X by doing Y which increased Z by 20%." ].

Definition feedback_prompt (question answer : str) : str :=
  NL
  ++ lit "You are an interview coach giving feedback to a student. Use very simple, short sentences" ++ NL
  ++ lit "(so a student can easily understand). The question is:" ++ NL
  ++ question ++ NL
  ++ NL
  ++ lit "The candidate's answer is:" ++ NL
  ++ answer ++ NL
  ++ NL
  ++ lit "Provide feedback as a short numbered list with these parts:" ++ NL
  ++ lit "1) A short score out of 100." ++ NL
  ++ lit "2) Two short strengths (one sentence each)." ++ NL
  ++ lit "3) Three short, actionable improvements (one sentence each)." ++ NL
  ++ lit "4) A single short model answer (1-2 sentences)." ++ NL
  ++ NL
  ++ lit "Use plain, easy words. Keep each item concise (<= 20 words). Return only the numbered list, one item per line." ++ NL.

Definition get_feedback_on_answer (MODEL : option backend) (question answer : str)
    : run str :=
  if negb (truthy answer) || negb (truthy (strip answer)) then Run [] NO_ANSWER
  else
    match MODEL with
    | None =>
        let ans_len := len (strip answer) in
        let feedback_lines := if ans_len <? 30 then LOW_FEEDBACK else HIGH_FEEDBACK in
        Run [] (join NL feedback_lines)
    | Some model =>
        let prompt := feedback_prompt question answer in
        Run [prompt]
          match model prompt with
          | Text t =>
              let lines := stripped_lines (response_text t) in
              if negb (truthy lines) then lit "No feedback returned. Try again."
              else join NL lines
          | Raises e => lit "Error generating feedback: " ++ e
          end
    end.

(** ** InterviewSession *)

Record InterviewSession := Session {
  job_title : str;
  n_questions : Z;
  _questions : list str;
  _index : Z
}.

(** What a method call comes to: a returned value or an IndexError. *)
Inductive outcome (A : Type) :=
| Return (a : A)
| IndexError.
Arguments Return {A} _.
Arguments IndexError {A}.

Definition set_index (s : InterviewSession) (i : Z) : InterviewSession :=
  Session (job_title s) (n_questions s) (_questions s) i.

(** [InterviewSession(job_title, n_questions)]; no session when
    [generate_questions] does not return. *)
Definition new_session (fuel : nat) (MODEL : option backend)
    (title : str) (n : Z) : run (option InterviewSession) :=
  let n := Z.max 1 n in
  let r := generate_questions fuel MODEL title n in
  Run (sent r)
    match value r with
    | None => None
    | Some questions => Some (Session title n questions 0)
    end.

Definition question_label (position : Z) (q : str) : str :=
  lit "Question " ++ str_of_int position ++ lit ": " ++ q.

Definition next_question (s : InterviewSession)
    : outcome (option str) * InterviewSession :=
  if _index s >=? len (_questions s) then (Return None, s)
  else
    match getitem (_questions s) (_index s) with
    | None => (IndexError, s)
    | Some q =>
        let s' := set_index s (_index s + 1) in
        (Return (Some (question_label (_index s') q)), s')
    end.

Definition peek_current (s : InterviewSession)
    : outcome (option str) * InterviewSession :=
  if _index s =? 0 then (Return None, s)
  else
    let idx := _index s - 1 in
    match getitem (_questions s) idx with
    | None => (IndexError, s)
    | Some q => (Return (Some (question_label (idx + 1) q)), s)
    end.

Definition has_next (s : InterviewSession) : bool * InterviewSession :=
  (_index s <? len (_questions s), s).

Definition reset (s : InterviewSession) : unit * InterviewSession :=
  (tt, set_index s 0).

Definition all_questions (s : InterviewSession) : list str * InterviewSession :=
  (_questions s, s).

(** A caller's sequence of method calls on one session. *)
Inductive call := CallNext | CallPeek | CallHasNext | CallReset | CallAllQuestions.

Definition exec (c : call) (s : InterviewSession) : InterviewSession :=
  match c with
  | CallNext => snd (next_question s)
  | CallPeek => snd (peek_current s)
  | CallHasNext => snd (has_next s)
  | CallReset => snd (reset s)
  | CallAllQuestions => snd (all_questions s)
  end.

Definition exec_all (cs : list call) (s : InterviewSession) : InterviewSession :=
  fold_left (fun st c => exec c st) cs s.

(** ** Notions used by the statements *)

(** No whitespace at the end of [s]. *)
Definition rstripped (s : str) : Prop := drop_while isspace (rev s) = rev s.

(** A character that the loop body may remove from the front of a line. *)
Definition marker_or_space (c : char) : bool := char_in c MARKER_CHARS || isspace c.

(** [cleaned_from cleaned lines]: [cleaned] is got from [lines], in order;
    a line is dropped only when it is made of markers and whitespace; of a
    line that is kept a non-empty part [q] is kept, what comes before [q]
    being markers and whitespace and what comes after it whitespace, and [q]
    is the whole stripped line when that does not start with a digit, a
    hyphen or an asterisk. *)
Inductive cleaned_from : list str -> list str -> Prop :=
| cleaned_nil : cleaned_from [] []
| cleaned_drop line lines cleaned :
    forallb marker_or_space line = true ->
    cleaned_from cleaned lines ->
    cleaned_from cleaned (line :: lines)
| cleaned_keep line lines cleaned pre q post :
    line = pre ++ q ++ post ->
    forallb marker_or_space pre = true ->
    forallb isspace post = true ->
    q <> [] ->
    (has_leading_marker (strip line) = false -> q = strip line) ->
    cleaned_from cleaned lines ->
    cleaned_from (q :: cleaned) (line :: lines).

(** Every character of [s] that [isdigit] accepts is one of 0..9. *)
Definition ascii_digits_only (s : str) : bool :=
  forallb (fun c => implb (isdigit c) (char_in c (lit "0123456789"))) s.

(** [q] is not empty and its first character is none of a digit, a hyphen,
    an asterisk or whitespace. *)
Definition clean_head (q : str) : bool :=
  match q with
  | [] => false
  | c :: _ => negb (isdigit c) && negb (char_in c (lit "-*")) && negb (isspace c)
  end.

(** [q] starts with [pre]. *)
Fixpoint starts_with (pre q : str) : bool :=
  match pre, q with
  | [], _ => true
  | a :: pre', b :: q' => (a =? b)%N && starts_with pre' q'
  | _ :: _, [] => false
  end.

(** The session invariant: the cursor is within [0, len(questions)]. *)
Definition cursor_in_range (s : InterviewSession) : Prop :=
  0 <= _index s <= len (_questions s).

(** [k] calls of [next_question] in a row: for each call, what [has_next]
    said just before it, what it returned and the cursor after it. *)
Fixpoint next_trace (k : nat) (s : InterviewSession)
    : list (bool * outcome (option str) * Z) :=
  match k with
  | O => []
  | S k' =>
      let (r, s') := next_question s in
      (fst (has_next s), r, _index s') :: next_trace k' s'
  end.

Fixpoint next_times (k : nat) (s : InterviewSession) : InterviewSession :=
  match k with
  | O => s
  | S k' => next_times k' (snd (next_question s))
  end.

(** The question that [next_question] returned last among the calls [cs]
    made on [s] since the session was created or last reset, starting from
    [last]. *)
Fixpoint last_returned (cs : list call) (s : InterviewSession) (last : option str)
    : option str :=
  match cs with
  | [] => last
  | c :: cs' =>
      let last' :=
        match c with
        | CallNext =>
            match fst (next_question s) with
            | Return (Some q) => Some q
            | _ => last
            end
        | CallReset => None
        | _ => last
        end in
      last_returned cs' (exec c s) last'
  end.

(** Whether [next_question] was called in [cs] after the last [reset]. *)
Fixpoint next_since_reset (cs : list call) (called : bool) : bool :=
  match cs with
  | [] => called
  | CallNext :: cs' => next_since_reset cs' true
  | CallReset :: cs' => next_since_reset cs' false
  | _ :: cs' => next_since_reset cs' called
  end.

(** Every line starts with its 1-based position followed by [)]. *)
Fixpoint numbered_from (position : Z) (lines : list str) : bool :=
  match lines with
  | [] => true
  | l :: lines' =>
      starts_with (str_of_int position ++ lit ")") l && numbered_from (position + 1) lines'
  end.

(** A short answer followed by thirty spaces. *)
Definition padded_answer : str := lit "yes" ++ repeat 32%N 30.

(** A backend whose response numbers its only line with a circled digit. *)
Definition circled_backend : backend :=
  fun _ => Text (Some (9312%N :: lit " Tell me about yourself.")).

(** A backend whose call always raises. *)
Definition failing_backend : backend := fun _ => Raises (lit "503 Service Unavailable").

(** What ties the session to the question returned last ([last]) and to
    whether [next_question] was called since the last reset ([called]). *)
Definition peek_agrees (s : InterviewSession) (last : option str) (called : bool) : Prop :=
  cursor_in_range s
  /\ _questions s <> []
  /\ fst (peek_current s) = Return last
  /\ (called = false <-> _index s = 0).

(** ** More built-ins, used by app_tk.py *)

Definition COLON : char := 58%N.
Definition DOT : char := 46%N.

(** [s.split(sep)] for a separator of one character; [cur] is the piece
    being read. *)
Fixpoint split_from (sep : char) (cur s : str) : list str :=
  match s with
  | [] => [cur]
  | c :: rest =>
      if (c =? sep)%N then cur :: split_from sep [] rest
      else split_from sep (cur ++ [c]) rest
  end.

Definition split (sep : char) (s : str) : list str := split_from sep [] s.

(** [s.split(sep, 1)]: at most one split, at the first [sep]. *)
Fixpoint split_once_from (sep : char) (cur s : str) : list str :=
  match s with
  | [] => [cur]
  | c :: rest =>
      if (c =? sep)%N then [cur; rest] else split_once_from sep (cur ++ [c]) rest
  end.

Definition split_once (sep : char) (s : str) : list str := split_once_from sep [] s.

(** [s.replace(old, new)]: the occurrences of [old] are replaced from left
    to right without overlap; [skip] counts the characters of an occurrence
    still to pass over.  An empty [old] matches between all characters. *)
Fixpoint replace_from (old new : str) (skip : nat) (s : str) : str :=
  match s with
  | [] => []
  | c :: rest =>
      match skip with
      | S k => replace_from old new k rest
      | O =>
          if starts_with old s then new ++ replace_from old new (length old - 1) rest
          else c :: replace_from old new 0 rest
      end
  end.

Definition replace (old new s : str) : str :=
  match old with
  | [] => new ++ flat_map (fun c => c :: new) s
  | _ => replace_from old new 0 s
  end.

(** [enumerate(l, start)]. *)
Fixpoint enumerate {A} (start : Z) (l : list A) : list (Z * A) :=
  match l with
  | [] => []
  | x :: l' => (start, x) :: enumerate (start + 1) l'
  end.

(** The code points with a decimal digit value (general category Nd,
    Unicode 14.0); the value of a character of the range [(lo, hi)] is
    [(c - lo) mod 10]. *)
Definition DECIMAL_RANGES : list (N * N) :=
  [(48, 57); (1632, 1641); (1776, 1785); (1984, 1993); (2406, 2415);
   (2534, 2543); (2662, 2671); (2790, 2799); (2918, 2927); (3046, 3055);
   (3174, 3183); (3302, 3311); (3430, 3439); (3558, 3567); (3664, 3673);
   (3792, 3801); (3872, 3881); (4160, 4169); (4240, 4249); (6112, 6121);
   (6160, 6169); (6470, 6479); (6608, 6617); (6784, 6793); (6800, 6809);
   (6992, 7001); (7088, 7097); (7232, 7241); (7248, 7257); (42528, 42537);
   (43216, 43225); (43264, 43273); (43472, 43481); (43504, 43513);
   (43600, 43609); (44016, 44025); (65296, 65305); (66720, 66729);
   (68912, 68921); (69734, 69743); (69872, 69881); (69942, 69951);
   (70096, 70105); (70384, 70393); (70736, 70745); (70864, 70873);
   (71248, 71257); (71360, 71369); (71472, 71481); (71904, 71913);
   (72016, 72025); (72784, 72793); (73040, 73049); (73120, 73129);
   (92768, 92777); (92864, 92873); (93008, 93017); (120782, 120831);
   (123200, 123209); (123632, 123641); (125264, 125273); (130032, 130041)]%N.

Fixpoint decimal_value_in (c : char) (t : list (N * N)) : option N :=
  match t with
  | [] => None
  | (lo, hi) :: t' =>
      if ((lo <=? c) && (c <=? hi))%N then Some ((c - lo) mod 10)%N
      else decimal_value_in c t'
  end.

Definition decimal_value (c : char) : option N := decimal_value_in c DECIMAL_RANGES.

(** What [int] first makes of a character: ASCII is kept, any other
    whitespace becomes a space, any other decimal digit its ASCII digit and
    anything else a question mark, which no number contains. *)
Definition int_ascii (c : char) : char :=
  if (c <? 127)%N then c
  else if isspace c then 32%N
  else match decimal_value c with
       | Some d => (48 + d)%N
       | None => 63%N
       end.

(** The whitespace [int] skips around the number, after [int_ascii]. *)
Definition int_space (c : char) : bool := ((9 <=? c) && (c <=? 13) || (c =? 32))%N.

Definition ascii_digit (c : char) : bool := ((48 <=? c) && (c <=? 57))%N.

(** The digits of the number, single underscores allowed between them:
    the digits read so far (last one first) and what follows the number, or
    [None] on a doubled or trailing underscore. *)
Fixpoint scan_digits (after_underscore : bool) (digits_rev s : str) : option (str * str) :=
  match s with
  | [] => if after_underscore then None else Some (digits_rev, [])
  | c :: rest =>
      if ascii_digit c then scan_digits false (c :: digits_rev) rest
      else if (c =? 95)%N then
        if after_underscore then None else scan_digits true digits_rev rest
      else if after_underscore then None else Some (digits_rev, s)
  end.

(** The value of decimal digits given last digit first. *)
Fixpoint value_of_digits_rev (digits_rev : str) : Z :=
  match digits_rev with
  | [] => 0
  | c :: r => Z.of_N (c - 48) + 10 * value_of_digits_rev r
  end.

(** The default limit on the digits of a number converted from or to text. *)
Definition INT_MAX_STR_DIGITS : nat := 4300.

(** [int(s)] for a string; [None] is ValueError. *)
Definition int_of_str (s : str) : option Z :=
  let a := drop_while int_space (map int_ascii s) in
  let (negative, a) :=
    match a with
    | c :: r => if (c =? 43)%N then (false, r)
                else if (c =? 45)%N then (true, r) else (false, a)
    | [] => (false, a)
    end in
  match a with
  | c :: _ =>
      if (c =? 95)%N then None
      else
        match scan_digits false [] a with
        | None => None
        | Some (digits_rev, rest) =>
            match digits_rev, drop_while int_space rest with
            | _ :: _, [] =>
                if (INT_MAX_STR_DIGITS <? length digits_rev)%nat then None
                else
                  let v := value_of_digits_rev digits_rev in
                  Some (if negative then - v else v)
            | _, _ => None
            end
        end
  | [] => None
  end.

(** ** app_tk.py: the question blocks *)

(** An exception that leaves a callback. *)
Inductive exn := ExnIndexError | ExnValueError | ExnAttributeError.

(** A message box that a callback opens. *)
Inductive dialog :=
| ShowWarning (title message : str)
| ShowInfo (title message : str).

(** A [QuestionBlock], reduced to the number and the question it was made
    with and to the contents of its two text widgets. *)
Record QuestionBlock := Block {
  q_index : Z;
  q_text : str;
  answer_box : str;
  feedback_area : str
}.

(** [QuestionBlock(parent, q_index, q_text)]: both text widgets empty. *)
Definition new_block (idx : Z) (text : str) : QuestionBlock := Block idx text [] [].

(** [widget.get("1.0", tk.END)]: the content and the newline that ends a
    Tk text widget. *)
Definition text_get (content : str) : str := content ++ NL.

Definition clear_answer (b : QuestionBlock) : QuestionBlock :=
  Block (q_index b) (q_text b) [] [].

(** The loop of [task]: the stripped lines that are not empty, appended to
    [lines]. *)
Fixpoint collect_lines (raw lines : list str) : list str :=
  match raw with
  | [] => lines
  | ln :: raw' =>
      let ln := strip ln in
      if negb (truthy ln) then collect_lines raw' lines
      else collect_lines raw' (lines ++ [ln])
  end.

(** [task] in [on_get_feedback], from the feedback text to the steps
    handed to [_show_feedback]. *)
Definition feedback_steps (fb_text : str) : list str :=
  let lines := collect_lines (splitlines fb_text) [] in
  match lines with
  | [line] =>
      if 1 <? len (split DOT line)
      then map strip (filter (fun p => truthy (strip p)) (split DOT line))
      else lines
  | _ => lines
  end.

(** What [_show_feedback] leaves in the feedback area. *)
Definition shown_feedback (answer : str) (lines : list str) : str :=
  lit "Your Answer:" ++ NL
  ++ (strip answer ++ NL ++ NL)
  ++ lit "Feedback (step-by-step):" ++ NL
  ++ concat (map (fun '(i, ln) => str_of_int i ++ lit ") " ++ ln ++ NL)
                 (enumerate 1 lines)).

(** [on_get_feedback] up to the end of [_show_feedback]: the warning or the
    block with its feedback shown, and the prompts sent on the way. *)
Definition on_get_feedback (MODEL : option backend) (b : QuestionBlock)
    : run (option dialog * QuestionBlock) :=
  let answer := strip (text_get (answer_box b)) in
  if negb (truthy answer)
  then Run [] (Some (ShowWarning (lit "Empty answer") (lit "Please write an answer first.")), b)
  else
    let r := get_feedback_on_answer MODEL (q_text b) answer in
    let lines := feedback_steps (value r) in
    Run (sent r)
      (None, Block (q_index b) (q_text b) (answer_box b) (shown_feedback answer lines)).

(** ** app_tk.py: the application *)

Record InterviewApp := App {
  job_entry : str;
  status_var : str;
  q_blocks : list QuestionBlock;
  session : option InterviewSession
}.

(** [InterviewApp()]. *)
Definition new_app : InterviewApp := App (lit "Data Scientist") (lit "Ready") [] None.

(** How a callback ends: the message boxes it opened, the application as
    it left it, and the exception that ended it, if any. *)
Record handled := Handled {
  dialogs : list dialog;
  app_after : InterviewApp;
  raised : option exn
}.

Definition MISSING_JOB_TITLE : dialog :=
  ShowWarning (lit "Missing job title") (lit "Please enter a job title.").

Definition NO_MORE_QUESTIONS : dialog :=
  ShowInfo (lit "Finished") (lit "No more questions in session.").

(** [ensure_session]: its result, a warning if any, and the application;
    the value is [None] when the constructor does not return. *)
Definition ensure_session (fuel : nat) (MODEL : option backend) (a : InterviewApp)
    : run (option (bool * list dialog * InterviewApp)) :=
  match session a with
  | Some _ => Run [] (Some (true, [], a))
  | None =>
      let job := strip (job_entry a) in
      if negb (truthy job) then Run [] (Some (false, [MISSING_JOB_TITLE], a))
      else
        let r := new_session fuel MODEL job 10 in
        Run (sent r)
          match value r with
          | None => None
          | Some s =>
              Some (true, [],
                    App (job_entry a)
                        (lit "Session for '" ++ job ++ lit "' created")
                        (q_blocks a) (Some s))
          end
  end.

(** The number and the text that [on_next_question] takes from a question
    [q] returned by the session; [n_blocks] is [len(self.q_blocks)]. *)
Definition parse_question (q : str) (n_blocks : Z) : exn + (Z * str) :=
  if char_in COLON q then
    let parts := split_once COLON q in
    match getitem parts 0 with
    | None => inl ExnIndexError
    | Some p0 =>
        let label := strip p0 in
        match getitem parts 1 with
        | None => inl ExnIndexError
        | Some p1 =>
            let qtext := strip p1 in
            match int_of_str (strip (replace (lit "Question") [] label)) with
            | None => inl ExnValueError
            | Some idx => inr (idx, qtext)
            end
        end
    end
  else inr (n_blocks + 1, q).

Definition set_session (a : InterviewApp) (s : option InterviewSession) : InterviewApp :=
  App (job_entry a) (status_var a) (q_blocks a) s.

Definition on_next_question (fuel : nat) (MODEL : option backend) (a : InterviewApp)
    : run (option handled) :=
  let e := ensure_session fuel MODEL a in
  Run (sent e)
    match value e with
    | None => None
    | Some (false, ds, a1) => Some (Handled ds a1 None)
    | Some (true, ds, a1) =>
        match session a1 with
        | None => Some (Handled ds a1 (Some ExnAttributeError))
        | Some s =>
            match next_question s with
            | (IndexError, s') => Some (Handled ds (set_session a1 (Some s')) (Some ExnIndexError))
            | (Return q, s') =>
                let a2 := set_session a1 (Some s') in
                match q with
                | None => Some (Handled (ds ++ [NO_MORE_QUESTIONS]) a2 None)
                | Some q =>
                    if negb (truthy q) then Some (Handled (ds ++ [NO_MORE_QUESTIONS]) a2 None)
                    else
                      match parse_question q (len (q_blocks a2)) with
                      | inl ex => Some (Handled ds a2 (Some ex))
                      | inr (idx, qtext) =>
                          Some (Handled ds
                                  (App (job_entry a2) (status_var a2)
                                       (q_blocks a2 ++ [new_block idx qtext]) (session a2))
                                  None)
                      end
                end
            end
        end
    end.

Definition clear_all (a : InterviewApp) : InterviewApp :=
  App (job_entry a) (lit "Cleared") [] None.

(** [_populate_all_questions(questions)], run when the background task of
    [on_get_all_questions] has its list. *)
Definition _populate_all_questions (a : InterviewApp) (questions : list str) : InterviewApp :=
  let a := clear_all a in
  let blocks :=
    fold_left (fun bs '(i, q) => bs ++ [new_block i q]) (enumerate 1 questions) (q_blocks a) in
  App (job_entry a) (str_of_int (len questions) ++ lit " questions loaded") blocks (session a).

(** [on_get_all_questions]: the warning, or the status and the job title
    that the background task is started with. *)
Definition on_get_all_questions (a : InterviewApp) : handled * option str :=
  let job := strip (job_entry a) in
  if negb (truthy job) then (Handled [MISSING_JOB_TITLE] a None, None)
  else
    (Handled [] (App (job_entry a) (lit "Generating questions...") (q_blocks a) (session a)) None,
     Some job).

(** The background task of [on_get_all_questions] and the call of
    [_populate_all_questions] it schedules, on the application as it is
    when that call runs. *)
Definition all_questions_task (fuel : nat) (MODEL : option backend) (job : str)
    (a : InterviewApp) : run (option InterviewApp) :=
  let r := generate_questions fuel MODEL job 10 in
  Run (sent r)
    match value r with
    | None => None
    | Some qs => Some (_populate_all_questions a qs)
    end.

(** ** app_tk.py: the stand-ins used when the engine cannot be imported *)

Record StandInSession := StandIn {
  standin_questions : list str;
  standin_index : Z
}.

(** [next_question] of the stand-in class: the cursor moves before the
    question is read. *)
Definition standin_next_question (s : StandInSession)
    : outcome (option str) * StandInSession :=
  if standin_index s >=? len (standin_questions s) then (Return None, s)
  else
    let s' := StandIn (standin_questions s) (standin_index s + 1) in
    match getitem (standin_questions s') (standin_index s' - 1) with
    | None => (IndexError, s')
    | Some q => (Return (Some (question_label (standin_index s') q)), s')
    end.

(** ** interview_engine.py: the demo *)

Definition DEMO_ANSWER : str := lit "I led a project and solved tasks.".


(** ** Notions used by the further properties *)

(** The fallback questions that are not among [questions]. *)
Definition unused_fallback (questions : list str) : list str :=
  filter (fun q => negb (str_in q questions)) FALLBACK_QUESTIONS.

(** No line boundary in [s]. *)
Definition no_linebreak (s : str) : bool := forallb (fun c => negb (is_linebreak c)) s.

(** A line as the engine and the feedback area want it: not empty, without
    whitespace around it and without a line boundary in it. *)
Definition tidy_line (l : str) : Prop :=
  l <> [] /\ strip l = l /\ no_linebreak l = true.



(** Fresh blocks for the questions [qs], numbered from [start] on, each
    holding [f] of its question. *)
Definition numbered_blocks (f : str -> str) (start : Z) (qs : list str) : list QuestionBlock :=
  map (fun iq => new_block (fst iq) (f (snd iq))) (enumerate start qs).

(** [ln] starts with a digit character that the loop body does not
    remove: one that [isdigit] accepts and that is not among 0..9. *)
Definition starts_with_foreign_digit (ln : str) : bool :=
  match ln with
  | [] => false
  | c :: _ => isdigit c && negb (char_in c MARKER_CHARS)
  end.

(** ** The cleaning of a line, in the words of the claim *)

(** The characters that make a line a list item: a digit 0..9, a hyphen or
    an asterisk at its start. *)
Definition BULLET_CHARS : str := lit "0123456789-*".

(** Following the words of the claim, not the loop: one pass over the
    characters of a line that removes a leading run of marker characters
    (digits 0..9, [.], [)], [-], [*], space, tab) and the whitespace after
    it, and starts again when what follows begins with a digit 0..9, a
    hyphen or an asterisk.  [in_markers] tells whether the pass is in a run
    of markers or in the whitespace after one. *)
Fixpoint skip_markers (in_markers : bool) (s : str) : str :=
  match s with
  | [] => []
  | c :: rest =>
      if in_markers then
        if char_in c MARKER_CHARS then skip_markers true rest
        else if isspace c then skip_markers false rest
        else s
      else
        if isspace c then skip_markers false rest
        else if char_in c BULLET_CHARS then skip_markers true rest
        else s
  end.

(** A line without its leading enumeration markers: untouched unless it
    begins with a digit 0..9, a hyphen or an asterisk. *)
Definition without_leading_markers (line : str) : str :=
  match line with
  | [] => []
  | c :: _ => if char_in c BULLET_CHARS then skip_markers true line else line
  end.

(** The lines of a text, stripped and without their leading markers, those
    of which nothing remains left out. *)
Definition unmarked_lines (text : str) : list str :=
  filter truthy (map (fun l => without_leading_markers (strip l)) (splitlines text)).

(** A line on which the marker loop does not end: without its leading
    markers it begins with a digit character other than 0..9. *)
Definition stuck_line (line : str) : bool :=
  starts_with_foreign_digit (without_leading_markers (strip line)).

Definition no_stuck_line (text : str) : bool :=
  forallb (fun l => negb (stuck_line l)) (splitlines text).


(** ** generate_questions with the exceptions that leave it *)

(** The model above follows the calls that return or hang, and takes every
    raised exception for one that [except Exception] catches and every
    count for one that can be printed.  This one also tells which exception
    leaves a call. *)
Module Raising.

(** A raised exception, as far as the engine can tell one from another:
    whether it is an instance of [Exception] (KeyboardInterrupt, SystemExit
    and GeneratorExit are not), and what [str(e)] comes to: a text, or
    another exception raised by its [__str__]. *)
Inductive exception :=
| Exc (is_Exception : bool) (text : str)
| ExcNoText (is_Exception : bool) (raised : exception).

(** [isinstance(e, Exception)]: what [except Exception] catches. *)
Definition caught (e : exception) : bool :=
  match e with
  | Exc is_Exception _ => is_Exception
  | ExcNoText is_Exception _ => is_Exception
  end.

(** What [MODEL.generate_content(prompt)] followed by [resp.text] comes
    to. *)
Inductive reply :=
| Responds (text : option str)
| Throws (e : exception).

Definition backend := str -> reply.

(** How a call ends. *)
Inductive result (A : Type) :=
| Returned (a : A)
| Hangs
| Propagated (e : exception).
Arguments Returned {A} _.
Arguments Hangs {A}.
Arguments Propagated {A} _.

(** CPython 3.11 prints an [int] of at most 4300 digits, the sign not
    counted; for a longer one [str(n)] and the [{n}] of an f-string raise
    this ValueError. *)
Definition printable (n : Z) : bool :=
  (length (str_of_int (Z.abs n)) <=? INT_MAX_STR_DIGITS)%nat.

Definition INT_DIGITS_ERROR : exception :=
  Exc true
    (lit "Exceeds the limit (4300 digits) for integer string conversion; use sys.set_int_max_str_digits() to increase the limit").

(** The prompt is built before the [try]; inside it, [except Exception]
    takes the exceptions that are instances of [Exception] and builds the
    message from [str(e)]. *)
Definition generate_questions (fuel : nat) (MODEL : option backend)
    (job_title : str) (n_questions : Z) : run (result (list str)) :=
  if negb (truthy job_title) then Run [] (Returned [PLEASE_PROVIDE])
  else
    match MODEL with
    | None => Run [] (Returned (slice_to FALLBACK_QUESTIONS n_questions))
    | Some model =>
        if negb (printable n_questions) then Run [] (Propagated INT_DIGITS_ERROR)
        else
          let prompt := questions_prompt job_title n_questions in
          Run [prompt]
            match model prompt with
            | Responds t =>
                match _clean_list_from_text fuel (response_text t) with
                | None => Hangs
                | Some questions =>
                    let questions :=
                      if len questions <? n_questions
                      then slice_to
                             (questions
                              ++ filter (fun q => negb (str_in q questions))
                                        FALLBACK_QUESTIONS)
                             n_questions
                      else questions in
                    Returned (slice_to questions n_questions)
                end
            | Throws e =>
                if caught e then
                  match e with
                  | Exc _ text =>
                      Returned ((lit "Error generating questions: " ++ text)
                                :: slice_to FALLBACK_QUESTIONS (Z.max 0 (n_questions - 1)))
                  | ExcNoText _ raised => Propagated raised
                  end
                else Propagated e
            end
    end.

(** The reply as the model above has it, when it has it. *)
Definition plain_reply (r : reply) : option response :=
  match r with
  | Responds t => Some (Text t)
  | Throws (Exc true text) => Some (Raises text)
  | Throws _ => None
  end.

(** The result of the model above. *)
Definition of_value {A} (v : option A) : result A :=
  match v with
  | Some a => Returned a
  | None => Hangs
  end.

Definition failing_backend : backend :=
  fun _ => Throws (Exc true (lit "503 Service Unavailable")).

Definition KEYBOARD_INTERRUPT : exception := Exc false [].

(** A backend whose call is interrupted from the keyboard. *)
Definition interrupted_backend : backend := fun _ => Throws KEYBOARD_INTERRUPT.

End Raising.

(** ** Sample runs *)

Example splitlines_crlf :
  splitlines (lit "ab" ++ [13; 10]%N ++ lit "cd" ++ NL ++ NL ++ lit "e" ++ NL)
  = [lit "ab"; lit "cd"; []; lit "e"].
Proof. reflexivity. Qed.

Example strip_both : strip (lit "  1. x ") = lit "1. x".
Proof. reflexivity. Qed.

Example str_of_int_samples :
  (str_of_int 0, str_of_int 10, str_of_int (-3)) = (lit "0", lit "10", lit "-3").
Proof. reflexivity. Qed.

Example slice_to_samples :
  (slice_to [1; 2; 3] 2, slice_to [1; 2; 3] (-1), slice_to [1; 2; 3] 7, slice_to [1; 2; 3] (-5))
  = ([1; 2], [1; 2], [1; 2; 3], []).
Proof. reflexivity. Qed.

Example splitlines_cr_cases :
  (splitlines [13; 10]%N, splitlines (lit "a" ++ [13]%N), splitlines [],
   splitlines (lit "a" ++ [10; 13]%N ++ lit "b"),
   splitlines (lit "a" ++ [13; 13; 10]%N ++ lit "b"))
  = ([[]], [lit "a"], [], [lit "a"; []; lit "b"], [lit "a"; []; lit "b"]).
Proof. reflexivity. Qed.

Example clean_numbered_list :
  _clean_list_from_text 1
    (lit "1. Tell me about yourself." ++ NL ++ NL ++ lit " - 2) Why?" ++ NL ++ lit "***")
  = Some [lit "Tell me about yourself."; lit "Why?"].
Proof. reflexivity. Qed.

Example clean_drops_marker_lines :
  _clean_list_from_text 1 (lit "***" ++ NL ++ lit "12." ++ NL ++ lit ".)" ++ NL ++ lit "a")
  = Some [lit ".)"; lit "a"].
Proof. reflexivity. Qed.

Example circled_digit_is_digit_not_marker :
  isdigit 9312%N = true /\ char_in 9312%N MARKER_CHARS = false.
Proof. split; reflexivity. Qed.

(** Fewer lines than asked for: the fallback questions not yet in the list
    fill it up. *)
Example generate_questions_pads :
  value (generate_questions 1
           (Some (fun _ => Text (Some (lit "1. Tell me about yourself." ++ NL
                                        ++ lit "2. Why data science?"))))
           (lit "Data Scientist") 4)
  = Some [lit "Tell me about yourself."; lit "Why data science?";
          lit "Why should we hire you?"; lit "What are your strengths?"].
Proof. reflexivity. Qed.

Example feedback_from_backend :
  get_feedback_on_answer
    (Some (fun _ => Text (Some (NL ++ lit "  1) 80/100 " ++ NL ++ NL ++ lit "2) Good."))))
    (lit "Why?") (lit "Because.")
  = Run [feedback_prompt (lit "Why?") (lit "Because.")]
        (lit "1) 80/100" ++ NL ++ lit "2) Good.").
Proof. reflexivity. Qed.

Example feedback_backend_raises :
  value (get_feedback_on_answer (Some failing_backend) (lit "Why?") (lit "Because."))
  = lit "Error generating feedback: 503 Service Unavailable".
Proof. reflexivity. Qed.

Example int_of_str_samples :
  map int_of_str
    [lit " 5 "; [28; 53]%N; [133; 53]%N; lit "+5"; lit "-5"; lit "- 5"; lit "_5"; lit "5_";
     lit "5__0"; lit "5_0"; lit "007"; lit "-0"; [1635; 1636]%N; lit "5 5"; []; lit "+";
     [178]%N; [49; 50; 0]%N; [65297; 65298]%N; lit "0x10"]
  = [Some 5; None; Some 5; Some 5; Some (-5); None; None; None;
     None; Some 50; Some 7; Some 0; Some 34; None; None; None;
     None; None; Some 12; None].
Proof. reflexivity. Qed.

Example split_samples :
  (split DOT (lit "a.b."), split DOT [], split DOT (lit "."), split DOT (lit "a"))
  = ([lit "a"; lit "b"; []], [[]], [[]; []], [lit "a"])
  /\ (split_once COLON (lit "a:b:c"), split_once COLON (lit "abc"), split_once COLON [])
     = ([lit "a"; lit "b:c"], [lit "abc"], [[]]).
Proof. split; reflexivity. Qed.

Example replace_samples :
  (replace (lit "Question") [] (lit "Question 5"),
   replace (lit "Question") (lit "x") (lit "QuestionQuestion"),
   replace (lit "aa") (lit "b") (lit "aaa"),
   replace [] (lit "-") (lit "abc"),
   replace (lit "Question") [] (lit "QQuestion"))
  = (lit " 5", lit "xx", lit "ba", lit "-a-b-c-", lit "Q").
Proof. reflexivity. Qed.

Example parse_question_samples :
  (parse_question (lit "Question 3: What are your strengths?") 7,
   parse_question (lit "What are your strengths?") 7,
   parse_question (lit "Why: because") 7)
  = (inr (3, lit "What are your strengths?"),
     inr (8, lit "What are your strengths?"),
     inl ExnValueError).
Proof. reflexivity. Qed.

Example feedback_steps_paragraph :
  feedback_steps (lit "Good answer. Score 7.5 of 10. ")
  = [lit "Good answer"; lit "Score 7"; lit "5 of 10"].
Proof. reflexivity. Qed.

Example unmarked_lines_sample :
  unmarked_lines
    (lit "1. Tell me" ++ NL ++ lit " - 2) Why?" ++ NL ++ lit "***" ++ NL ++ lit ".NET?"
     ++ NL ++ lit "3)" ++ [160%N] ++ lit ". x" ++ NL ++ lit "4." ++ [160%N] ++ lit "- y ")
  = [lit "Tell me"; lit "Why?"; lit ".NET?"; lit ". x"; lit "y"]
  /\ _clean_list_from_text 2
       (lit "1. Tell me" ++ NL ++ lit " - 2) Why?" ++ NL ++ lit "***" ++ NL ++ lit ".NET?"
        ++ NL ++ lit "3)" ++ [160%N] ++ lit ". x" ++ NL ++ lit "4." ++ [160%N] ++ lit "- y ")
     = Some [lit "Tell me"; lit "Why?"; lit ".NET?"; lit ". x"; lit "y"].
Proof. split; reflexivity. Qed.

(** ** Stripping: what [lstrip], [rstrip] and [strip] remove *)

Section DropWhile.

Variable p : char -> bool.

Lemma drop_while_split (s : str) :
  exists pre, s = pre ++ drop_while p s /\ Forall (fun c => p c = true) pre.
Proof.
  induction s as [|c s IH]; simpl.
  - exists []. split; [reflexivity | constructor].
  - destruct (p c) eqn:E.
    + destruct IH as (pre & Hs & Hp). exists (c :: pre). split.
      * simpl. rewrite <- Hs. reflexivity.
      * constructor; assumption.
    + exists []. split; [reflexivity | constructor].
Qed.

Lemma drop_while_head (s : str) c r : drop_while p s = c :: r -> p c = false.
Proof.
  induction s as [|a s IH]; simpl; [discriminate|].
  destruct (p a) eqn:E; [exact IH|].
  intros H. injection H as -> _. exact E.
Qed.

Lemma drop_while_fix (s : str) c r : s = c :: r -> p c = false -> drop_while p s = s.
Proof. intros -> E. simpl. rewrite E. reflexivity. Qed.

Lemma drop_while_length (s : str) : (length (drop_while p s) <= length s)%nat.
Proof.
  induction s as [|c s IH]; simpl; [lia|].
  destruct (p c); simpl; lia.
Qed.

Lemma drop_while_all (s : str) : forallb p s = true -> drop_while p s = [].
Proof.
  induction s as [|c s IH]; simpl; [reflexivity|].
  destruct (p c); simpl; [exact IH | discriminate].
Qed.

Lemma drop_while_nil_all (s : str) : drop_while p s = [] -> forallb p s = true.
Proof.
  induction s as [|c s IH]; simpl; [reflexivity|].
  destruct (p c); simpl; [exact IH | discriminate].
Qed.

End DropWhile.

Lemma rstripped_fix s : rstripped s -> rstrip s = s.
Proof. unfold rstripped, rstrip. intros ->. apply rev_involutive. Qed.

Lemma rstripped_nil : rstripped [].
Proof. reflexivity. Qed.

Lemma rstripped_rstrip s : rstripped (rstrip s).
Proof.
  unfold rstripped, rstrip. rewrite rev_involutive.
  destruct (drop_while isspace (rev s)) as [|c r] eqn:E; [reflexivity|].
  eapply drop_while_fix; [reflexivity|]. eapply drop_while_head. exact E.
Qed.

Lemma rstripped_strip s : rstripped (strip s).
Proof. apply rstripped_rstrip. Qed.

Lemma rstripped_suffix pre s : rstripped (pre ++ s) -> rstripped s.
Proof.
  unfold rstripped. rewrite rev_app_distr.
  destruct (rev s) as [|c r] eqn:E; [reflexivity|].
  simpl. destruct (isspace c) eqn:Ec; [|reflexivity].
  intros H. exfalso.
  pose proof (drop_while_length isspace (r ++ rev pre)) as Hl.
  rewrite H in Hl. simpl in Hl. lia.
Qed.

Lemma rstripped_drop_while p s : rstripped s -> rstripped (drop_while p s).
Proof.
  intros H. destruct (drop_while_split p s) as (pre & Hs & _).
  rewrite Hs in H. eapply rstripped_suffix. exact H.
Qed.

Lemma rstrip_split s :
  exists post, s = rstrip s ++ post /\ Forall (fun c => isspace c = true) post.
Proof.
  unfold rstrip. destruct (drop_while_split isspace (rev s)) as (pre & Hs & Hp).
  exists (rev pre). split.
  - rewrite <- rev_app_distr, <- Hs. symmetry. apply rev_involutive.
  - apply Forall_rev. exact Hp.
Qed.

Lemma strip_split s :
  exists pre post, s = pre ++ strip s ++ post
    /\ Forall (fun c => isspace c = true) pre /\ Forall (fun c => isspace c = true) post.
Proof.
  destruct (drop_while_split isspace s) as (pre & Hs & Hp).
  destruct (rstrip_split (lstrip s)) as (post & Hr & Hq).
  exists pre, post. unfold strip. fold (lstrip s) in Hs.
  rewrite <- Hr. auto.
Qed.

Lemma strip_head s c r : strip s = c :: r -> isspace c = false.
Proof.
  intros H. destruct (rstrip_split (lstrip s)) as (post & Hr & _).
  fold (strip s) in Hr. rewrite H in Hr. simpl in Hr.
  eapply drop_while_head. exact Hr.
Qed.

Lemma strip_length s : (length (strip s) <= length s)%nat.
Proof.
  destruct (strip_split s) as (pre & post & Hs & _).
  rewrite Hs at 2. rewrite !length_app. lia.
Qed.

Lemma strip_rstripped s : rstripped s -> strip s = lstrip s.
Proof.
  intros H. unfold strip. apply rstripped_fix.
  apply rstripped_drop_while. exact H.
Qed.

(** [strip s] is empty exactly when [s] is blank. *)
Lemma strip_nil_iff s : strip s = [] <-> forallb isspace s = true.
Proof.
  split.
  - intros H. destruct (strip_split s) as (pre & post & Hs & Hp & Hq).
    rewrite H in Hs. rewrite Hs. rewrite forallb_app.
    apply andb_true_intro. split; apply forallb_forall; intros c Hc.
    + rewrite Forall_forall in Hp. auto.
    + rewrite Forall_forall in Hq. auto.
  - intros H. unfold strip, lstrip. rewrite (drop_while_all _ _ H). reflexivity.
Qed.

Lemma strip_idem s : strip (strip s) = strip s.
Proof.
  rewrite strip_rstripped by apply rstripped_strip.
  destruct (strip s) as [|c r] eqn:E; [reflexivity|].
  eapply drop_while_fix; [reflexivity|]. eapply strip_head. exact E.
Qed.

Lemma forallb_app_r (f : char -> bool) pre s :
  forallb f (pre ++ s) = true -> forallb f s = true.
Proof. rewrite forallb_app. intros H. apply andb_prop in H. tauto. Qed.

Lemma forallb_app_l (f : char -> bool) s post :
  forallb f (s ++ post) = true -> forallb f s = true.
Proof. rewrite forallb_app. intros H. apply andb_prop in H. tauto. Qed.

Lemma Forall_forallb (f : char -> bool) s :
  Forall (fun c => f c = true) s -> forallb f s = true.
Proof. intros H. apply forallb_forall. rewrite Forall_forall in H. exact H. Qed.

Lemma forallb_strip (f : char -> bool) s : forallb f s = true -> forallb f (strip s) = true.
Proof.
  intros H. destruct (strip_split s) as (pre & post & Hs & _).
  rewrite Hs in H. eapply forallb_app_l, forallb_app_r, H.
Qed.

Lemma forallb_drop_while (f p : char -> bool) s :
  forallb f s = true -> forallb f (drop_while p s) = true.
Proof.
  intros H. destruct (drop_while_split p s) as (pre & Hs & _).
  rewrite Hs in H. eapply forallb_app_r, H.
Qed.

Lemma forallb_weaken (f g : char -> bool) s :
  (forall c, f c = true -> g c = true) -> forallb f s = true -> forallb g s = true.
Proof.
  intros Hfg H. apply forallb_forall. intros c Hc.
  apply Hfg. rewrite forallb_forall in H. auto.
Qed.

(** ** The marker loop of [_clean_list_from_text] *)

Lemma strip_markers_once_split ln :
  rstripped ln ->
  exists pre, ln = pre ++ strip_markers_once ln /\ forallb marker_or_space pre = true.
Proof.
  intros H. unfold strip_markers_once, lstrip_chars.
  rewrite strip_rstripped by (apply rstripped_drop_while; exact H).
  destruct (drop_while_split (fun c => char_in c MARKER_CHARS) ln) as (p1 & H1 & Hp1).
  destruct (drop_while_split isspace (drop_while (fun c => char_in c MARKER_CHARS) ln))
    as (p2 & H2 & Hp2).
  exists (p1 ++ p2). split.
  - rewrite <- app_assoc. unfold lstrip. rewrite <- H2. exact H1.
  - rewrite forallb_app. apply andb_true_intro. split.
    + apply Forall_forallb. eapply Forall_impl; [|exact Hp1].
      intros c Hc. cbv beta in Hc. unfold marker_or_space. rewrite Hc. reflexivity.
    + apply Forall_forallb. eapply Forall_impl; [|exact Hp2].
      intros c Hc. unfold marker_or_space. rewrite Hc. apply orb_true_r.
Qed.

(** What the loop returns, when it returns. *)
Lemma strip_markers_sound fuel : forall ln r,
  strip ln = ln ->
  strip_markers fuel ln = Some r ->
  strip r = r /\ has_leading_marker r = false
  /\ exists pre, ln = pre ++ r /\ forallb marker_or_space pre = true.
Proof.
  induction fuel as [|fuel IH]; intros ln r Hln; simpl;
    destruct (has_leading_marker ln) eqn:Hm; try discriminate.
  - intros [= <-]. repeat split; auto. exists []. auto.
  - intros Hr. apply IH in Hr; [|apply strip_idem].
    destruct Hr as (Hs & Hh & pre & Hpre & Hf).
    repeat split; auto.
    destruct (strip_markers_once_split ln) as (pre0 & H0 & Hf0).
    { rewrite <- Hln. apply rstripped_strip. }
    exists (pre0 ++ pre). split.
    + rewrite <- app_assoc, <- Hpre. exact H0.
    + rewrite forallb_app, Hf0, Hf. reflexivity.
  - intros [= <-]. repeat split; auto. exists []. auto.
Qed.

Lemma char_in_In c chars : char_in c chars = true <-> In c chars.
Proof.
  unfold char_in. rewrite existsb_exists. split.
  - intros (x & Hx & E). apply N.eqb_eq in E. subst. exact Hx.
  - intros H. exists c. split; [exact H | apply N.eqb_refl].
Qed.

Lemma digit_chars_are_markers c :
  char_in c (lit "0123456789") = true -> char_in c MARKER_CHARS = true.
Proof.
  rewrite !char_in_In. unfold MARKER_CHARS. rewrite in_app_iff.
  change (lit "0123456789. )-*") with (lit "0123456789" ++ lit ". )-*").
  rewrite in_app_iff. tauto.
Qed.

Lemma bullet_chars_are_markers c :
  char_in c (lit "-*") = true -> char_in c MARKER_CHARS = true.
Proof.
  rewrite !char_in_In. unfold MARKER_CHARS. rewrite in_app_iff.
  change (lit "0123456789. )-*") with (lit "0123456789. )" ++ lit "-*").
  rewrite in_app_iff. tauto.
Qed.

(** The loop leaves a line without a leading marker as it is. *)
Lemma strip_markers_no_marker fuel ln :
  has_leading_marker ln = false -> strip_markers fuel ln = Some ln.
Proof. intros H. destruct fuel; simpl; rewrite H; reflexivity. Qed.

Lemma leading_marker_in_chars ln :
  ascii_digits_only ln = true -> has_leading_marker ln = true ->
  exists c r, ln = c :: r /\ char_in c MARKER_CHARS = true.
Proof.
  destruct ln as [|c r]; [discriminate|].
  unfold ascii_digits_only, has_leading_marker.
  cbn [forallb]. intros Hd Hm. exists c, r. split; [reflexivity|].
  apply andb_prop in Hd. destruct Hd as [Hc _].
  apply orb_prop in Hm. destruct Hm as [Hm | Hm].
  - rewrite Hm in Hc. apply digit_chars_are_markers. exact Hc.
  - apply bullet_chars_are_markers. exact Hm.
Qed.

Lemma strip_markers_once_shrinks ln :
  ascii_digits_only ln = true -> has_leading_marker ln = true ->
  (length (strip_markers_once ln) < length ln)%nat.
Proof.
  intros Hd Hm. destruct (leading_marker_in_chars ln Hd Hm) as (c & r & -> & Hc).
  unfold strip_markers_once, lstrip_chars. cbn [drop_while]. rewrite Hc.
  pose proof (strip_length (drop_while (fun c => char_in c MARKER_CHARS) r)).
  pose proof (drop_while_length (fun c => char_in c MARKER_CHARS) r).
  cbn [length]. lia.
Qed.

(** The loop returns on a line whose digits are all ASCII digits. *)
Lemma strip_markers_total fuel : forall ln,
  ascii_digits_only ln = true -> (length ln <= fuel)%nat ->
  exists r, strip_markers fuel ln = Some r.
Proof.
  induction fuel as [|fuel IH]; intros ln Hd Hl; simpl;
    destruct (has_leading_marker ln) eqn:Hm; eauto.
  - destruct ln; [discriminate | simpl in Hl; lia].
  - apply IH.
    + unfold strip_markers_once, lstrip_chars.
      apply forallb_strip, forallb_drop_while, Hd.
    + pose proof (strip_markers_once_shrinks ln Hd Hm). lia.
Qed.

Lemma space_is_marker_or_space s :
  forallb isspace s = true -> forallb marker_or_space s = true.
Proof.
  apply forallb_weaken. intros c Hc. unfold marker_or_space.
  rewrite Hc. apply orb_true_r.
Qed.

Lemma clean_head_of_loop_result r :
  strip r = r -> has_leading_marker r = false -> r <> [] -> clean_head r = true.
Proof.
  destruct r as [|c r]; [congruence|].
  intros Hs Hm _. unfold clean_head. unfold has_leading_marker in Hm.
  apply orb_false_elim in Hm. destruct Hm as [-> ->].
  rewrite (strip_head _ _ _ Hs). reflexivity.
Qed.

(** The [for] loop, on the lines of the list comprehension. *)
Lemma clean_lines_spec fuel raw : forall acc res,
  clean_lines fuel (map strip (filter (fun ln => truthy (strip ln)) raw)) acc = Some res ->
  exists new, res = acc ++ new /\ cleaned_from new raw /\ forallb clean_head new = true.
Proof.
  induction raw as [|l raw IH]; intros acc res; simpl.
  - intros [= <-]. exists []. rewrite app_nil_r. repeat split. constructor.
  - destruct (strip_split l) as (p0 & q0 & Hl & Hp0 & Hq0).
    apply Forall_forallb in Hp0, Hq0.
    destruct (strip l) as [|c r] eqn:El; simpl.
    + intros H. apply IH in H. destruct H as (new & -> & Hc & Hh).
      exists new. repeat split; auto.
      apply cleaned_drop; [|exact Hc].
      apply space_is_marker_or_space, strip_nil_iff, El.
    + rewrite El.
      destruct (strip_markers fuel (c :: r)) as [r'|] eqn:Er; [|discriminate].
      pose proof (strip_markers_no_marker fuel (c :: r)) as Hkeep. rewrite Er in Hkeep.
      apply strip_markers_sound in Er; [|rewrite <- El; apply strip_idem].
      destruct Er as (Hs & Hm & pre & Hpre & Hf).
      destruct r' as [|c' r']; simpl; intros H; apply IH in H;
        destruct H as (new & -> & Hc & Hh).
      * exists new. repeat split; auto.
        apply cleaned_drop; [|exact Hc].
        rewrite Hl, Hpre, app_nil_r, !forallb_app, Hf.
        rewrite !space_is_marker_or_space by assumption. reflexivity.
      * exists ((c' :: r') :: new). rewrite <- app_assoc. repeat split.
        -- eapply cleaned_keep with (pre := p0 ++ pre) (post := q0); auto.
           ++ rewrite Hl, Hpre, <- !app_assoc. reflexivity.
           ++ rewrite forallb_app, Hf, space_is_marker_or_space by assumption.
              reflexivity.
           ++ discriminate.
           ++ intros Hno. rewrite El in Hno. apply Hkeep in Hno. congruence.
        -- cbn [forallb]. rewrite Hh, andb_true_r.
           apply clean_head_of_loop_result; [exact Hs | exact Hm | discriminate].
Qed.

Lemma clean_lines_total fuel raw : forall acc,
  Forall (fun l => ascii_digits_only l = true /\ (length l <= fuel)%nat) raw ->
  exists res, clean_lines fuel (map strip (filter (fun ln => truthy (strip ln)) raw)) acc
              = Some res.
Proof.
  induction raw as [|l raw IH]; intros acc H; simpl; [eauto|].
  inversion H as [|? ? [Hd Hl] Hrest]; subst.
  destruct (truthy (strip l)); simpl; [|auto].
  destruct (strip_markers_total fuel (strip l)) as (r & Hr).
  - apply forallb_strip, Hd.
  - pose proof (strip_length l). lia.
  - rewrite Hr. auto.
Qed.

(** The lines of [splitlines] are made of characters of the text and are
    not longer than it. *)
Lemma splitlines_from_lines (f : char -> bool) s : forall after_cr cur,
  forallb f cur = true -> forallb f s = true ->
  Forall (fun l => forallb f l = true /\ (length l <= length cur + length s)%nat)
         (splitlines_from after_cr cur s).
Proof.
  induction s as [|c s IH]; intros after_cr cur Hcur Hs; simpl.
  - destruct cur; constructor; auto. split; [exact Hcur | simpl; lia].
  - simpl in Hs. apply andb_prop in Hs. destruct Hs as [Hc Hs].
    assert (Hw : forall b cur',
      forallb f cur' = true -> (length cur' <= S (length cur))%nat ->
      Forall (fun l => forallb f l = true /\ (length l <= length cur + S (length s))%nat)
             (splitlines_from b cur' s)).
    { intros b cur' Hcur' Hlen. eapply Forall_impl; [|apply IH; assumption].
      cbv beta. intros l [Hl1 Hl2]. split; [exact Hl1 | lia]. }
    destruct (after_cr && (c =? 10)%N).
    + apply Hw; [exact Hcur | lia].
    + destruct (is_linebreak c).
      * constructor; [split; [exact Hcur | lia]|].
        apply Hw; [reflexivity | simpl; lia].
      * apply Hw.
        -- rewrite forallb_app, Hcur. simpl. rewrite Hc. reflexivity.
        -- rewrite length_app. simpl. lia.
Qed.

(** Any result of the parser obeys the relation and the head condition. *)
Lemma clean_list_from_text_sound fuel text cleaned :
  _clean_list_from_text fuel text = Some cleaned ->
  cleaned_from cleaned (splitlines text) /\ forallb clean_head cleaned = true.
Proof.
  unfold _clean_list_from_text, stripped_lines. intros H.
  apply clean_lines_spec in H. destruct H as (new & -> & Hc & Hh). auto.
Qed.

(** The loop does not return on a line it leaves as it is. *)
Lemma strip_markers_diverges ln :
  has_leading_marker ln = true -> strip_markers_once ln = ln ->
  forall fuel, strip_markers fuel ln = None.
Proof.
  intros Hm Hfix fuel. induction fuel as [|fuel IH]; simpl; rewrite Hm.
  - reflexivity.
  - rewrite Hfix. exact IH.
Qed.

Lemma clean_list_from_text_total text fuel :
  ascii_digits_only text = true ->
  (length text <= fuel)%nat ->
  exists cleaned, _clean_list_from_text fuel text = Some cleaned.
Proof.
  intros Hd Hfuel.
  apply (clean_lines_total fuel (splitlines text) []).
  eapply Forall_impl;
    [|apply (splitlines_from_lines
               (fun c => implb (isdigit c) (char_in c (lit "0123456789"))) text false []);
      [reflexivity | exact Hd]].
  cbv beta. intros l [Hl1 Hl2]. split; [exact Hl1 | simpl in Hl2; lia].
Qed.

(** ** Claims about [_clean_list_from_text] *)

(** C4, as stated, fails: a line that begins with a full stop is returned
    unchanged, because the loop only starts on a digit, a hyphen or an
    asterisk. *)
Lemma clean_list_keeps_leading_dot :
  _clean_list_from_text 0 (lit ".NET experience?") = Some [lit ".NET experience?"]
  /\ starts_with (lit ".") (lit ".NET experience?") = true.
Proof. split; reflexivity. Qed.

(** *** The loop against the words of the claim *)

Lemma bullet_is_marker c : char_in c BULLET_CHARS = true -> char_in c MARKER_CHARS = true.
Proof.
  rewrite !char_in_In. unfold BULLET_CHARS, MARKER_CHARS. rewrite in_app_iff.
  change (lit "0123456789-*") with (lit "0123456789" ++ lit "-*").
  change (lit "0123456789. )-*") with (lit "0123456789" ++ lit ". )" ++ lit "-*").
  rewrite !in_app_iff. tauto.
Qed.

(** The guard of the loop holds on a bullet character. *)
Lemma bullet_starts_loop c r : char_in c BULLET_CHARS = true -> has_leading_marker (c :: r) = true.
Proof.
  rewrite char_in_In. unfold BULLET_CHARS. cbn [has_leading_marker].
  intros H. cbn in H.
  repeat (destruct H as [<- | H]; [reflexivity|]). destruct H.
Qed.

(** A marker character that [isdigit] accepts is a bullet character. *)
Lemma marker_digit_is_bullet c :
  char_in c MARKER_CHARS = true -> isdigit c = true -> char_in c BULLET_CHARS = true.
Proof.
  rewrite char_in_In. unfold MARKER_CHARS. intros H. cbn in H.
  repeat (destruct H as [<- | H]; [first [reflexivity | discriminate]|]). destruct H.
Qed.

(** Off a bullet character and off a foreign digit the loop does not
    start. *)
Lemma no_bullet_no_loop ln :
  without_leading_markers ln = ln ->
  starts_with_foreign_digit ln = false ->
  (forall c r, ln = c :: r -> char_in c BULLET_CHARS = false) ->
  has_leading_marker ln = false.
Proof.
  destruct ln as [|c r]; [reflexivity|]. intros _ Hf Hb.
  specialize (Hb c r eq_refl). cbn [has_leading_marker starts_with_foreign_digit] in *.
  apply orb_false_intro.
  - destruct (isdigit c) eqn:Hd; [|reflexivity].
    cbn [andb] in Hf. apply negb_false_iff in Hf.
    rewrite (marker_digit_is_bullet c Hf Hd) in Hb. discriminate.
  - apply not_true_is_false. intros H. rewrite char_in_In in H.
    assert (Hin : char_in c BULLET_CHARS = true).
    { apply char_in_In. unfold BULLET_CHARS.
      change (lit "0123456789-*") with (lit "0123456789" ++ lit "-*").
      apply in_app_iff. right. exact H. }
    rewrite Hin in Hb. discriminate.
Qed.

(** In a run of markers, the pass goes on from the end of the run. *)
Lemma skip_markers_run s :
  skip_markers true s = skip_markers false (lstrip_chars MARKER_CHARS s).
Proof.
  unfold lstrip_chars. induction s as [|c s IH]; [reflexivity|].
  cbn [skip_markers drop_while]. destruct (char_in c MARKER_CHARS) eqn:Hm; [exact IH|].
  cbn [skip_markers]. destruct (isspace c); [reflexivity|].
  destruct (char_in c BULLET_CHARS) eqn:Hb; [|reflexivity].
  rewrite (bullet_is_marker c Hb) in Hm. discriminate.
Qed.

(** In the whitespace after a run, the pass goes on from its end. *)
Lemma skip_markers_space s :
  skip_markers false s = without_leading_markers (lstrip s).
Proof.
  unfold lstrip. induction s as [|c s IH]; [reflexivity|].
  cbn [skip_markers drop_while]. destruct (isspace c); [exact IH|].
  cbn [without_leading_markers]. destruct (char_in c BULLET_CHARS) eqn:Hb; [|reflexivity].
  cbn [skip_markers]. rewrite (bullet_is_marker c Hb). reflexivity.
Qed.

(** One pass of the loop body leaves the cleaned line as it is. *)
Lemma without_leading_markers_once c r :
  char_in c BULLET_CHARS = true -> strip (c :: r) = c :: r ->
  without_leading_markers (strip_markers_once (c :: r)) = without_leading_markers (c :: r).
Proof.
  intros Hb Hs. cbn [without_leading_markers]. rewrite Hb.
  rewrite skip_markers_run, skip_markers_space. unfold strip_markers_once.
  rewrite strip_rstripped; [reflexivity|].
  unfold lstrip_chars. apply rstripped_drop_while. rewrite <- Hs. apply rstripped_strip.
Qed.

Lemma strip_markers_once_shorter c r :
  char_in c MARKER_CHARS = true ->
  (length (strip_markers_once (c :: r)) < length (c :: r))%nat.
Proof.
  intros Hc. unfold strip_markers_once, lstrip_chars. cbn [drop_while]. rewrite Hc.
  pose proof (strip_length (drop_while (fun c => char_in c MARKER_CHARS) r)).
  pose proof (drop_while_length (fun c => char_in c MARKER_CHARS) r).
  cbn [length]. lia.
Qed.

(** On a stripped line that is not stuck the loop returns the line without
    its leading markers, within as many passes as the line has
    characters. *)
Lemma strip_markers_refines fuel : forall ln,
  strip ln = ln ->
  starts_with_foreign_digit (without_leading_markers ln) = false ->
  (length ln <= fuel)%nat ->
  strip_markers fuel ln = Some (without_leading_markers ln).
Proof.
  induction fuel as [|fuel IH]; intros ln Hs Hf Hl.
  - destruct ln; [reflexivity | simpl in Hl; lia].
  - destruct ln as [|c r]; [reflexivity|].
    destruct (char_in c BULLET_CHARS) eqn:Hb.
    + cbn [strip_markers]. rewrite (bullet_starts_loop c r Hb).
      rewrite <- (without_leading_markers_once c r Hb Hs) in *.
      apply IH; [apply strip_idem | exact Hf|].
      pose proof (strip_markers_once_shorter c r (bullet_is_marker c Hb)). lia.
    + assert (Hw : without_leading_markers (c :: r) = c :: r)
        by (cbn [without_leading_markers]; rewrite Hb; reflexivity).
      rewrite Hw in *. apply strip_markers_no_marker.
      apply no_bullet_no_loop; [exact Hw | exact Hf|].
      intros c' r' [= <- <-]. exact Hb.
Qed.

(** On a stripped line that is stuck the loop never returns. *)
Lemma strip_markers_stuck n : forall ln,
  (length ln <= n)%nat -> strip ln = ln ->
  starts_with_foreign_digit (without_leading_markers ln) = true ->
  forall fuel, strip_markers fuel ln = None.
Proof.
  induction n as [|n IH]; intros ln Hl Hs Hf.
  - destruct ln; [discriminate | simpl in Hl; lia].
  - destruct ln as [|c r]; [discriminate|].
    destruct (char_in c BULLET_CHARS) eqn:Hb.
    + rewrite <- (without_leading_markers_once c r Hb Hs) in Hf.
      pose proof (strip_markers_once_shorter c r (bullet_is_marker c Hb)) as Hlt.
      intros [|fuel]; cbn [strip_markers]; rewrite (bullet_starts_loop c r Hb);
        [reflexivity|].
      apply IH; [lia | apply strip_idem | exact Hf].
    + assert (Hw : without_leading_markers (c :: r) = c :: r)
        by (cbn [without_leading_markers]; rewrite Hb; reflexivity).
      rewrite Hw in Hf. cbn [starts_with_foreign_digit] in Hf.
      apply andb_prop in Hf. destruct Hf as [Hd Hm]. apply negb_true_iff in Hm.
      apply strip_markers_diverges.
      * cbn [has_leading_marker]. rewrite Hd. reflexivity.
      * unfold strip_markers_once, lstrip_chars. cbn [drop_while]. rewrite Hm. exact Hs.
Qed.

(** The [for] loop on lines that are not stuck. *)
Lemma clean_lines_refines fuel raw : forall acc,
  Forall (fun l => stuck_line l = false /\ (length l <= fuel)%nat) raw ->
  clean_lines fuel (map strip (filter (fun ln => truthy (strip ln)) raw)) acc
  = Some (acc ++ filter truthy (map (fun l => without_leading_markers (strip l)) raw)).
Proof.
  induction raw as [|l raw IH]; intros acc H; cbn [filter map clean_lines].
  - rewrite app_nil_r. reflexivity.
  - inversion H as [|? ? [Hst Hl] Hrest]; subst. unfold stuck_line in Hst.
    destruct (strip l) as [|c s] eqn:El; cbn [truthy].
    + cbn [without_leading_markers truthy]. apply IH, Hrest.
    + cbn [map clean_lines]. rewrite El.
      rewrite strip_markers_refines;
        [| rewrite <- El; apply strip_idem | exact Hst
         | rewrite <- El; pose proof (strip_length l); lia].
      rewrite IH by exact Hrest.
      destruct (without_leading_markers (c :: s)); cbn [truthy]; [reflexivity|].
      rewrite <- app_assoc. reflexivity.
Qed.

Lemma splitlines_lengths text :
  Forall (fun l => (length l <= length text)%nat) (splitlines text).
Proof.
  assert (Hall : forallb (fun _ : char => true) text = true)
    by (induction text; auto).
  pose proof (splitlines_from_lines (fun _ => true) text false [] eq_refl Hall) as H.
  eapply Forall_impl; [|exact H]. cbv beta. intros l [_ Hl]. simpl in Hl. exact Hl.
Qed.

(** The parser against the words of the claim. *)
Lemma clean_list_from_text_refines text fuel :
  no_stuck_line text = true ->
  (length text <= fuel)%nat ->
  _clean_list_from_text fuel text = Some (unmarked_lines text).
Proof.
  intros Hn Hl. unfold _clean_list_from_text, stripped_lines, unmarked_lines.
  apply (clean_lines_refines fuel (splitlines text) []).
  unfold no_stuck_line in Hn. rewrite forallb_forall in Hn.
  pose proof (splitlines_lengths text) as Hs. rewrite Forall_forall in *.
  intros l Hin. split.
  - apply negb_true_iff, Hn, Hin.
  - specialize (Hs l Hin). lia.
Qed.

(** The condition is the exact one: with a stuck line the parser returns
    for no fuel. *)
Lemma clean_list_from_text_stuck text :
  no_stuck_line text = false -> forall fuel, _clean_list_from_text fuel text = None.
Proof.
  intros Hn fuel. unfold _clean_list_from_text, stripped_lines.
  unfold no_stuck_line in Hn.
  assert (H : forall raw acc,
    forallb (fun l => negb (stuck_line l)) raw = false ->
    clean_lines fuel (map strip (filter (fun ln => truthy (strip ln)) raw)) acc = None).
  { induction raw as [|l raw IH]; intros acc Hraw; [discriminate|].
    cbn [forallb] in Hraw. cbn [filter].
    destruct (stuck_line l) eqn:Hst.
    - unfold stuck_line in Hst.
      destruct (strip l) as [|c s] eqn:El; [discriminate|]. cbn [truthy map clean_lines].
      rewrite El.
      rewrite (strip_markers_stuck (length (c :: s)) (c :: s));
        [reflexivity | lia | rewrite <- El; apply strip_idem | exact Hst].
    - cbn [negb andb] in Hraw. destruct (truthy (strip l)); [|apply IH, Hraw].
      cbn [map clean_lines]. destruct (strip_markers fuel (strip l)); [|reflexivity].
      apply IH, Hraw. }
  apply H, Hn.
Qed.

(** C4, amended: on every text without a stuck line (a line that, without
    its leading markers, begins with a digit character other than 0..9) the
    parser returns, with fuel of the text's length, the lines of the text in
    order, each stripped and, when it then begins with a digit 0..9, [-] or
    [*], without its leading run of markers (digits 0..9, [.], [)], [-],
    [*], space, tab) and the whitespace after it, again and again while what
    remains begins with a digit 0..9, [-] or [*]; the lines of which nothing
    remains are left out.  No returned string is empty or begins with a
    digit, [-], [*] or whitespace.  On a text with a stuck line the parser
    returns for no fuel. *)
Theorem clean_list_from_text_strips_markers text fuel :
  (length text <= fuel)%nat ->
  if no_stuck_line text then
    _clean_list_from_text fuel text = Some (unmarked_lines text)
    /\ cleaned_from (unmarked_lines text) (splitlines text)
    /\ forallb clean_head (unmarked_lines text) = true
  else forall fuel', _clean_list_from_text fuel' text = None.
Proof.
  intros Hl. destruct (no_stuck_line text) eqn:Hn.
  - pose proof (clean_list_from_text_refines text fuel Hn Hl) as H.
    split; [exact H|]. apply clean_list_from_text_sound with (fuel := fuel). exact H.
  - apply clean_list_from_text_stuck, Hn.
Qed.

Lemma clean_list_from_text_strips_markers_witness :
  _clean_list_from_text 60
    (lit "1. Tell me about yourself." ++ NL ++ NL ++ lit " - 2) Why?" ++ NL ++ lit "***"
     ++ NL ++ lit "x" ++ [178%N])
  = Some (unmarked_lines
            (lit "1. Tell me about yourself." ++ NL ++ NL ++ lit " - 2) Why?" ++ NL ++ lit "***"
             ++ NL ++ lit "x" ++ [178%N]))
  /\ cleaned_from
       (unmarked_lines
          (lit "1. Tell me about yourself." ++ NL ++ NL ++ lit " - 2) Why?" ++ NL ++ lit "***"
           ++ NL ++ lit "x" ++ [178%N]))
       (splitlines
          (lit "1. Tell me about yourself." ++ NL ++ NL ++ lit " - 2) Why?" ++ NL ++ lit "***"
           ++ NL ++ lit "x" ++ [178%N]))
  /\ forallb clean_head
       (unmarked_lines
          (lit "1. Tell me about yourself." ++ NL ++ NL ++ lit " - 2) Why?" ++ NL ++ lit "***"
           ++ NL ++ lit "x" ++ [178%N])) = true.
Proof.
  apply (clean_list_from_text_strips_markers
           (lit "1. Tell me about yourself." ++ NL ++ NL ++ lit " - 2) Why?" ++ NL ++ lit "***"
            ++ NL ++ lit "x" ++ [178%N]) 60).
  vm_compute. lia.
Defined.

(** ** Claims about [generate_questions] and [get_feedback_on_answer] *)

Lemma truthy_nonempty {A} (l : list A) : l <> [] -> truthy l = true.
Proof. destruct l; [congruence | reflexivity]. Qed.

Lemma Forall_firstn {A} (P : A -> Prop) n : forall l, Forall P l -> Forall P (firstn n l).
Proof.
  induction n as [|n IH]; intros l H; simpl; [constructor|].
  destruct H; constructor; auto.
Qed.

Lemma slice_to_nonneg {A} (l : list A) n : 0 <= n -> slice_to l n = firstn (Z.to_nat n) l.
Proof. intros H. unfold slice_to. destruct (Z.ltb_spec n 0); [lia | reflexivity]. Qed.

Lemma generate_questions_fallback fuel title n :
  title <> [] ->
  generate_questions fuel None title n = Run [] (Some (slice_to FALLBACK_QUESTIONS n)).
Proof.
  intros H. unfold generate_questions. rewrite (truthy_nonempty _ H). reflexivity.
Qed.

Lemma fallback_questions_nonempty : Forall (fun q => q <> []) FALLBACK_QUESTIONS.
Proof. repeat constructor; discriminate. Qed.

(** C1: without a backend, [generate_questions] on a non-empty title and
    1 <= N <= 10 sends nothing and returns the first N fallback questions in
    their order: at most N strings, none empty, the same list whatever the
    fuel and the title; the session made for "Data Scientist" and 3 questions
    holds the first three. *)
Theorem generate_questions_no_backend fuel title n :
  title <> [] ->
  1 <= n <= 10 ->
  generate_questions fuel None title n
    = Run [] (Some (firstn (Z.to_nat n) FALLBACK_QUESTIONS))
  /\ len (firstn (Z.to_nat n) FALLBACK_QUESTIONS) <= n
  /\ Forall (fun q => q <> []) (firstn (Z.to_nat n) FALLBACK_QUESTIONS)
  /\ (forall fuel' title', title' <> [] ->
        generate_questions fuel' None title' n = generate_questions fuel None title n)
  /\ exists s,
       new_session fuel None (lit "Data Scientist") 3 = Run [] (Some s)
       /\ fst (all_questions s) = firstn 3 FALLBACK_QUESTIONS.
Proof.
  intros Ht Hn. repeat split.
  - rewrite generate_questions_fallback, slice_to_nonneg by (auto; lia). reflexivity.
  - unfold len. pose proof (firstn_le_length (Z.to_nat n) FALLBACK_QUESTIONS). lia.
  - apply Forall_firstn, fallback_questions_nonempty.
  - intros fuel' title' Ht'. rewrite !generate_questions_fallback by auto. reflexivity.
  - eexists. split; reflexivity.
Qed.

Lemma generate_questions_no_backend_witness :
  generate_questions 0 None (lit "Backend Engineer") 4
    = Run [] (Some (firstn (Z.to_nat 4) FALLBACK_QUESTIONS))
  /\ len (firstn (Z.to_nat 4) FALLBACK_QUESTIONS) <= 4
  /\ Forall (fun q => q <> []) (firstn (Z.to_nat 4) FALLBACK_QUESTIONS)
  /\ (forall fuel' title', title' <> [] ->
        generate_questions fuel' None title' 4
        = generate_questions 0 None (lit "Backend Engineer") 4)
  /\ exists s,
       new_session 0 None (lit "Data Scientist") 3 = Run [] (Some s)
       /\ fst (all_questions s) = firstn 3 FALLBACK_QUESTIONS.
Proof.
  apply (generate_questions_no_backend 0 (lit "Backend Engineer") 4); [discriminate | lia].
Defined.

(** C2, as stated, fails: the threshold is applied to the stripped answer,
    so an answer of 33 characters, 30 of them trailing spaces, gets the
    40/100 block. *)
Lemma feedback_padded_answer_scores_low :
  30 <= len padded_answer
  /\ forallb isspace padded_answer = false
  /\ value (get_feedback_on_answer None (lit "Why should we hire you?") padded_answer)
     = join NL LOW_FEEDBACK
  /\ join NL LOW_FEEDBACK <> join NL HIGH_FEEDBACK.
Proof. repeat split; try reflexivity; discriminate. Qed.

Lemma nonblank_strip a : forallb isspace a = false -> a <> [] /\ strip a <> [].
Proof.
  intros H. split.
  - intros ->. discriminate.
  - intros E. apply strip_nil_iff in E. congruence.
Qed.

(** C2, amended: without a backend, an answer that is not blank gets the
    40/100 block when its length after stripping leading and trailing
    whitespace is below 30, and the 75/100 block otherwise; no prompt is
    sent, and either result is five lines, each starting with its 1-based
    position. *)
Theorem feedback_heuristic_on_stripped_length question answer :
  forallb isspace answer = false ->
  let r := get_feedback_on_answer None question answer in
  sent r = []
  /\ (len (strip answer) < 30 -> value r = join NL LOW_FEEDBACK)
  /\ (30 <= len (strip answer) -> value r = join NL HIGH_FEEDBACK)
  /\ length (splitlines (value r)) = 5%nat
  /\ numbered_from 1 (splitlines (value r)) = true.
Proof.
  intros H. apply nonblank_strip in H. destruct H as [Ha Hs].
  unfold get_feedback_on_answer.
  rewrite (truthy_nonempty _ Ha), (truthy_nonempty _ Hs). cbn [negb orb].
  destruct (Z.ltb_spec (len (strip answer)) 30); cbn [sent value];
    repeat split; try reflexivity; intros; lia.
Qed.

Lemma feedback_heuristic_on_stripped_length_witness :
  let r := get_feedback_on_answer None (lit "Why should we hire you?")
             (lit "I led a project and solved tasks.") in
  sent r = []
  /\ (len (strip (lit "I led a project and solved tasks.")) < 30
      -> value r = join NL LOW_FEEDBACK)
  /\ (30 <= len (strip (lit "I led a project and solved tasks."))
      -> value r = join NL HIGH_FEEDBACK)
  /\ length (splitlines (value r)) = 5%nat
  /\ numbered_from 1 (splitlines (value r)) = true.
Proof.
  apply (feedback_heuristic_on_stripped_length (lit "Why should we hire you?")
           (lit "I led a project and solved tasks.")).
  reflexivity.
Defined.

(** Where the model of [generate_questions] that returns or hangs has the
    reply of the backend and the count can be printed, it ends as the model
    with the exceptions says. *)
Lemma generate_questions_agrees fuel (model : backend) (model' : Raising.backend) title n :
  Raising.printable n = true ->
  Raising.plain_reply (model' (questions_prompt title n))
    = Some (model (questions_prompt title n)) ->
  Raising.generate_questions fuel (Some model') title n
  = Run (sent (generate_questions fuel (Some model) title n))
        (Raising.of_value (value (generate_questions fuel (Some model) title n))).
Proof.
  intros Hp Hr. unfold Raising.generate_questions, generate_questions.
  destruct (truthy title); cbn [negb sent value Raising.of_value]; [|reflexivity].
  rewrite Hp. cbn [negb sent value].
  destruct (model' (questions_prompt title n)) as [t | [[|] text | b e']];
    cbn [Raising.plain_reply] in Hr; try discriminate;
    injection Hr as <-; cbn [Raising.caught].
  - destruct (_clean_list_from_text fuel (response_text t)); reflexivity.
  - reflexivity.
Qed.

Lemma generate_questions_agrees_no_backend fuel title n :
  Raising.generate_questions fuel None title n
  = Run (sent (generate_questions fuel None title n))
        (Raising.of_value (value (generate_questions fuel None title n))).
Proof.
  unfold Raising.generate_questions, generate_questions.
  destruct (truthy title); reflexivity.
Qed.

(** A count that cannot be printed ends the call before the backend is
    called. *)
Lemma generate_questions_unprintable fuel (model : Raising.backend) title n :
  title <> [] ->
  Raising.printable n = false ->
  Raising.generate_questions fuel (Some model) title n
  = Run [] (Raising.Propagated Raising.INT_DIGITS_ERROR).
Proof.
  intros Ht Hp. unfold Raising.generate_questions.
  rewrite (truthy_nonempty _ Ht), Hp. reflexivity.
Qed.

Example generate_questions_count_too_long :
  Raising.generate_questions 0 (Some Raising.failing_backend) (lit "Data Scientist")
    (10 ^ 4300)
  = Run [] (Raising.Propagated Raising.INT_DIGITS_ERROR).
Proof.
  apply generate_questions_unprintable; [discriminate | vm_compute; reflexivity].
Qed.

Lemma error_list_length (text : str) n :
  len ((lit "Error generating questions: " ++ text)
       :: firstn (Z.to_nat (n - 1)) FALLBACK_QUESTIONS) = n
  <-> 1 <= n <= 11.
Proof.
  unfold len. cbn [length]. rewrite length_firstn.
  change (length FALLBACK_QUESTIONS) with 10%nat. lia.
Qed.

(** C5 fails as it is worded: an exception that is no instance of
    [Exception], here KeyboardInterrupt, leaves [generate_questions]; and
    for a count of 12 the list returned when the call raises has 11
    entries, the message and the ten fallback questions, so that the
    requested count is not filled. *)
Lemma generate_questions_interrupt_propagates :
  Raising.generate_questions 0 (Some Raising.interrupted_backend) (lit "Data Scientist") 3
  = Run [questions_prompt (lit "Data Scientist") 3]
        (Raising.Propagated Raising.KEYBOARD_INTERRUPT)
  /\ Raising.generate_questions 0 (Some Raising.failing_backend) (lit "Data Scientist") 12
     = Run [questions_prompt (lit "Data Scientist") 12]
           (Raising.Returned
              ((lit "Error generating questions: 503 Service Unavailable")
               :: FALLBACK_QUESTIONS))
  /\ len ((lit "Error generating questions: 503 Service Unavailable")
          :: FALLBACK_QUESTIONS) = 11.
Proof. repeat split; reflexivity. Qed.

(** C5, amended: for a non-empty title and a count N of at most 4300
    digits, when the backend call raises an instance of [Exception] whose
    [str(e)] is a text, [generate_questions] returns the message "Error
    generating questions: " followed by that text, and after it the first
    N-1 fallback questions (none for N <= 1, all ten for N >= 11); the
    exception goes no further, and the list has N entries exactly when
    1 <= N <= 11.  An exception that is no instance of [Exception] leaves
    the call, and so does one raised by [str(e)].  For a longer count the
    call ends with ValueError before the backend is called. *)
Theorem generate_questions_backend_raises fuel (model : Raising.backend) title n e :
  title <> [] ->
  model (questions_prompt title n) = Raising.Throws e ->
  if Raising.printable n then
    Raising.generate_questions fuel (Some model) title n
      = Run [questions_prompt title n]
          match e with
          | Raising.Exc true text =>
              Raising.Returned
                ((lit "Error generating questions: " ++ text)
                 :: firstn (Z.to_nat (n - 1)) FALLBACK_QUESTIONS)
          | Raising.ExcNoText true raised => Raising.Propagated raised
          | _ => Raising.Propagated e
          end
    /\ (forall text,
          len ((lit "Error generating questions: " ++ text)
               :: firstn (Z.to_nat (n - 1)) FALLBACK_QUESTIONS) = n
          <-> 1 <= n <= 11)
  else
    Raising.generate_questions fuel (Some model) title n
      = Run [] (Raising.Propagated Raising.INT_DIGITS_ERROR).
Proof.
  intros Ht He. destruct (Raising.printable n) eqn:Hp.
  - split; [|intros text; apply error_list_length].
    unfold Raising.generate_questions. rewrite (truthy_nonempty _ Ht), Hp, He.
    cbn [negb]. destruct e as [[|] text | [|] raised]; cbn [Raising.caught]; try reflexivity.
    rewrite slice_to_nonneg by lia.
    replace (Z.to_nat (Z.max 0 (n - 1))) with (Z.to_nat (n - 1)) by lia.
    reflexivity.
  - apply generate_questions_unprintable; assumption.
Qed.

Lemma generate_questions_backend_raises_witness :
  Raising.generate_questions 0 (Some Raising.failing_backend) (lit "Data Scientist") 3
    = Run [questions_prompt (lit "Data Scientist") 3]
        (Raising.Returned
           ((lit "Error generating questions: " ++ lit "503 Service Unavailable")
            :: firstn (Z.to_nat (3 - 1)) FALLBACK_QUESTIONS))
  /\ (forall text,
        len ((lit "Error generating questions: " ++ text)
             :: firstn (Z.to_nat (3 - 1)) FALLBACK_QUESTIONS) = 3
        <-> 1 <= 3 <= 11).
Proof.
  apply (generate_questions_backend_raises 0 Raising.failing_backend (lit "Data Scientist") 3
           (Raising.Exc true (lit "503 Service Unavailable")));
    [discriminate | reflexivity].
Defined.

(** C6: with an empty job title [generate_questions] returns the one
    placeholder string, and with an empty or blank answer
    [get_feedback_on_answer] returns the fixed message, whatever the count,
    the question and the backend; neither sends a prompt to the backend. *)
Theorem validation_failures_are_local fuel MODEL n question answer :
  forallb isspace answer = true ->
  generate_questions fuel MODEL [] n = Run [] (Some [PLEASE_PROVIDE])
  /\ get_feedback_on_answer MODEL question answer = Run [] NO_ANSWER.
Proof.
  intros H. split; [reflexivity|].
  unfold get_feedback_on_answer.
  apply strip_nil_iff in H. rewrite H. cbn [truthy negb]. rewrite orb_true_r.
  reflexivity.
Qed.

Lemma validation_failures_are_local_witness :
  generate_questions 0 (Some failing_backend) [] 7 = Run [] (Some [PLEASE_PROVIDE])
  /\ get_feedback_on_answer (Some failing_backend) (lit "Why should we hire you?")
       (lit "   " ++ [9%N] ++ NL)
     = Run [] NO_ANSWER.
Proof.
  apply (validation_failures_are_local 0 (Some failing_backend) 7
           (lit "Why should we hire you?") (lit "   " ++ [9%N] ++ NL)).
  reflexivity.
Defined.

(** On a response whose digits are all ASCII digits [generate_questions]
    returns, with fuel of the response's length. *)
Lemma generate_questions_returns fuel MODEL title n :
  (forall model t, MODEL = Some model -> model (questions_prompt title n) = Text t ->
     ascii_digits_only (response_text t) = true
     /\ (length (response_text t) <= fuel)%nat) ->
  exists questions, value (generate_questions fuel MODEL title n) = Some questions.
Proof.
  intros H. unfold generate_questions.
  destruct (truthy title); cbn [negb value]; [|eauto].
  destruct MODEL as [model|]; cbn [value]; [|eauto].
  destruct (model (questions_prompt title n)) as [t|e] eqn:E; [|eauto].
  destruct (H model t eq_refl E) as [Hd Hl].
  destruct (clean_list_from_text_total _ _ Hd Hl) as (qs & ->).
  eauto.
Qed.

(** C7 fails on the code: when the backend's response has a line that
    starts with a digit character other than 0..9, here a circled one, the
    marker loop of [_clean_list_from_text] never ends and
    [generate_questions] returns nothing, whatever the fuel. *)
Theorem generate_questions_hangs_on_circled_digit fuel :
  value (generate_questions fuel (Some circled_backend) (lit "Data Scientist") 3) = None.
Proof.
  unfold generate_questions, circled_backend.
  change (truthy (lit "Data Scientist")) with true. cbn [negb value].
  unfold _clean_list_from_text.
  change (stripped_lines (response_text (Some (9312%N :: lit " Tell me about yourself."))))
    with [9312%N :: lit " Tell me about yourself."].
  cbn [clean_lines].
  rewrite strip_markers_diverges; reflexivity.
Qed.

(** ** The session *)

Lemma getitem_in_range {A} (l : list A) i :
  0 <= i < len l -> exists x, getitem l i = Some x.
Proof.
  intros H. unfold getitem. destruct (Z.ltb_spec i 0); [lia|].
  destruct (nth_error l (Z.to_nat i)) eqn:E; [eauto|].
  apply nth_error_None in E. unfold len in H. lia.
Qed.

Lemma exec_frame c s :
  job_title (exec c s) = job_title s
  /\ n_questions (exec c s) = n_questions s
  /\ _questions (exec c s) = _questions s.
Proof.
  destruct c; simpl; auto.
  - unfold next_question. destruct (_index s >=? len (_questions s)); auto.
    destruct (getitem (_questions s) (_index s)); auto.
  - unfold peek_current. destruct (_index s =? 0); auto.
    destruct (getitem (_questions s) (_index s - 1)); auto.
Qed.

Lemma exec_all_frame cs : forall s,
  job_title (exec_all cs s) = job_title s
  /\ n_questions (exec_all cs s) = n_questions s
  /\ _questions (exec_all cs s) = _questions s.
Proof.
  induction cs as [|c cs IH]; intros s; simpl; auto.
  destruct (IH (exec c s)) as (H1 & H2 & H3).
  destruct (exec_frame c s) as (F1 & F2 & F3).
  repeat split; congruence.
Qed.

Lemma peek_current_frame s : snd (peek_current s) = s.
Proof.
  unfold peek_current. destruct (_index s =? 0); auto.
  destruct (getitem (_questions s) (_index s - 1)); auto.
Qed.

(** In range, [next_question] either reports the end or returns the
    question at the cursor under its 1-based position and moves on by one. *)
Lemma next_question_in_range s :
  cursor_in_range s ->
  (_index s = len (_questions s) /\ next_question s = (Return None, s))
  \/ (_index s < len (_questions s)
      /\ exists q, getitem (_questions s) (_index s) = Some q
           /\ next_question s
              = (Return (Some (question_label (_index s + 1) q)),
                 set_index s (_index s + 1))).
Proof.
  intros [Hlo Hhi]. unfold next_question.
  destruct (Z.geb_spec (_index s) (len (_questions s))).
  - left. split; [lia | reflexivity].
  - right. split; [lia|].
    destruct (getitem_in_range (_questions s) (_index s)) as (q & Hq); [lia|].
    exists q. rewrite Hq. auto.
Qed.

Lemma exec_cursor_in_range c s : cursor_in_range s -> cursor_in_range (exec c s).
Proof.
  intros H. destruct c; simpl; auto.
  - destruct (next_question_in_range s H) as [[_ ->] | (Hlt & q & _ & ->)]; auto.
    unfold cursor_in_range in *. simpl. lia.
  - rewrite peek_current_frame. exact H.
  - unfold cursor_in_range in *. simpl. lia.
Qed.

Lemma exec_all_cursor_in_range cs : forall s,
  cursor_in_range s -> cursor_in_range (exec_all cs s).
Proof.
  induction cs as [|c cs IH]; intros s H; simpl; auto.
  apply IH, exec_cursor_in_range, H.
Qed.

Lemma slice_to_nonempty {A} (l : list A) n : 1 <= n -> l <> [] -> slice_to l n <> [].
Proof.
  intros Hn Hl. rewrite slice_to_nonneg by lia.
  destruct l; [congruence|].
  destruct (Z.to_nat n) eqn:E; [lia | discriminate].
Qed.

(** With a count of at least one, a returned question list is not empty. *)
Lemma generate_questions_nonempty fuel MODEL title n questions :
  1 <= n ->
  value (generate_questions fuel MODEL title n) = Some questions ->
  questions <> [].
Proof.
  intros Hn. unfold generate_questions.
  destruct (truthy title); cbn [negb value].
  - destruct MODEL as [model|]; cbn [value].
    + destruct (model (questions_prompt title n)) as [t|e]; [|intros [= <-]; discriminate].
      destruct (_clean_list_from_text fuel (response_text t)) as [qs|]; [|discriminate].
      intros [= <-]. apply slice_to_nonempty; [exact Hn|].
      destruct (Z.ltb_spec (len qs) n).
      * apply slice_to_nonempty; [exact Hn|].
        destruct qs; [|discriminate]. cbn [app str_in existsb negb]. discriminate.
      * destruct qs; [|discriminate]. unfold len in *. simpl in *. lia.
    + intros [= <-]. apply slice_to_nonempty; [exact Hn | discriminate].
  - intros [= <-]. discriminate.
Qed.

(** What holds of a session just created. *)
Lemma new_session_init fuel MODEL title n s0 :
  value (new_session fuel MODEL title n) = Some s0 ->
  job_title s0 = title /\ n_questions s0 = Z.max 1 n /\ _index s0 = 0
  /\ _questions s0 <> []
  /\ value (generate_questions fuel MODEL title (Z.max 1 n)) = Some (_questions s0).
Proof.
  unfold new_session. cbn [value].
  destruct (value (generate_questions fuel MODEL title (Z.max 1 n))) as [qs|] eqn:E;
    [|discriminate].
  intros [= <-]. cbn. repeat split; auto.
  eapply generate_questions_nonempty; [|exact E]. lia.
Qed.

Lemma new_session_cursor_in_range fuel MODEL title n s0 :
  value (new_session fuel MODEL title n) = Some s0 -> cursor_in_range s0.
Proof.
  intros H. apply new_session_init in H. destruct H as (_ & _ & Hi & _).
  unfold cursor_in_range, len. rewrite Hi. lia.
Qed.

Lemma next_times_exhausted k : forall s,
  _index s >= len (_questions s) -> next_times k s = s.
Proof.
  induction k as [|k IH]; intros s H; simpl; [reflexivity|].
  unfold next_question. destruct (Z.geb_spec (_index s) (len (_questions s))); [|lia].
  simpl. apply IH, H.
Qed.

(** C3: a session made with five questions and a non-empty title, no
    backend: the first five [next_question] calls return the five fallback
    questions under "Question 1: " to "Question 5: ", all different, the
    cursor moving by one each time; the sixth returns [None]; [has_next] is
    true before each of the first five calls and false after five calls or
    more. *)
Theorem five_question_session fuel title :
  title <> [] ->
  exists s0,
    new_session fuel None title 5 = Run [] (Some s0)
    /\ next_trace 6 s0
       = [ (true, Return (Some (lit "Question 1: Why should we hire you?")), 1);
           (true, Return (Some (lit "Question 2: Tell me about yourself.")), 2);
           (true, Return (Some (lit "Question 3: What are your strengths?")), 3);
           (true, Return (Some (lit "Question 4: What are your weaknesses?")), 4);
           (true, Return (Some (lit "Question 5: Where do you see yourself in 5 years?")), 5);
           (false, Return None, 5) ]
    /\ NoDup (map (fun t => snd (fst t)) (next_trace 5 s0))
    /\ forall k, fst (has_next (next_times k s0)) = (Z.of_nat k <? 5).
Proof.
  intros Ht.
  exists (Session title 5 (firstn 5 FALLBACK_QUESTIONS) 0).
  split; [|split; [|split]].
  - unfold new_session. rewrite generate_questions_fallback by exact Ht. reflexivity.
  - reflexivity.
  - vm_compute. repeat constructor; simpl; intuition discriminate.
  - intros k.
    do 5 (destruct k as [|k]; [reflexivity|]).
    change (next_times (S (S (S (S (S k))))) (Session title 5 (firstn 5 FALLBACK_QUESTIONS) 0))
      with (next_times k (Session title 5 (firstn 5 FALLBACK_QUESTIONS) 5)).
    rewrite next_times_exhausted by (vm_compute; discriminate).
    cbn [has_next fst]. symmetry. apply Z.ltb_ge. lia.
Qed.

Lemma five_question_session_witness :
  exists s0,
    new_session 0 None (lit "Backend Engineer") 5 = Run [] (Some s0)
    /\ next_trace 6 s0
       = [ (true, Return (Some (lit "Question 1: Why should we hire you?")), 1);
           (true, Return (Some (lit "Question 2: Tell me about yourself.")), 2);
           (true, Return (Some (lit "Question 3: What are your strengths?")), 3);
           (true, Return (Some (lit "Question 4: What are your weaknesses?")), 4);
           (true, Return (Some (lit "Question 5: Where do you see yourself in 5 years?")), 5);
           (false, Return None, 5) ]
    /\ NoDup (map (fun t => snd (fst t)) (next_trace 5 s0))
    /\ forall k, fst (has_next (next_times k s0)) = (Z.of_nat k <? 5).
Proof.
  apply (five_question_session 0 (lit "Backend Engineer")). discriminate.
Defined.

(** C8: the cursor of a created session is within [0, len(questions)], every
    method keeps it there, so it is there after any calls; in such a state no
    method raises IndexError, and at the end [next_question] returns [None]
    and leaves the session as it is, however often it is called. *)
Theorem cursor_stays_in_range fuel MODEL title n s0 :
  value (new_session fuel MODEL title n) = Some s0 ->
  cursor_in_range s0
  /\ (forall s c, cursor_in_range s -> cursor_in_range (exec c s))
  /\ forall cs,
       let s := exec_all cs s0 in
       cursor_in_range s
       /\ fst (next_question s) <> IndexError
       /\ fst (peek_current s) <> IndexError
       /\ (_index s = len (_questions s) ->
           next_question s = (Return None, s) /\ forall k, next_times k s = s).
Proof.
  intros H0. pose proof (new_session_cursor_in_range _ _ _ _ _ H0) as Hs0.
  split; [exact Hs0|]. split; [intros s c; apply exec_cursor_in_range|].
  intros cs s. pose proof (exec_all_cursor_in_range cs s0 Hs0) as Hs. fold s in Hs.
  split; [exact Hs|]. repeat split.
  - destruct (next_question_in_range s Hs) as [[_ ->] | (_ & q & _ & ->)]; discriminate.
  - unfold peek_current. destruct (Z.eqb_spec (_index s) 0); [discriminate|].
    destruct (getitem_in_range (_questions s) (_index s - 1)) as (q & ->);
      [unfold cursor_in_range in Hs; lia | discriminate].
  - destruct (next_question_in_range s Hs) as [[_ ->] | (Hlt & _)]; [reflexivity | lia].
  - intros k. apply next_times_exhausted. lia.
Qed.

Lemma cursor_stays_in_range_witness :
  exists s0,
    value (new_session 0 None (lit "Data Scientist") 3) = Some s0
    /\ cursor_in_range (exec_all [CallNext; CallNext; CallNext; CallNext] s0).
Proof.
  eexists. split; [reflexivity|].
  apply (cursor_stays_in_range 0 None (lit "Data Scientist") 3 _ eq_refl).
Defined.

(** C9: [reset] puts the cursor at 0 and leaves the job title, the count and
    the question list as they are, so [all_questions] is the same before and
    after; the [next_question] that follows returns what the first call
    after construction returned, "Question 1: " and the first question of the
    list made at construction. *)
Theorem reset_only_moves_cursor fuel MODEL title n s0 :
  value (new_session fuel MODEL title n) = Some s0 ->
  forall cs,
    let s := exec_all cs s0 in
    let s' := snd (reset s) in
    _index s' = 0
    /\ job_title s' = job_title s
    /\ n_questions s' = n_questions s
    /\ _questions s' = _questions s
    /\ fst (all_questions s') = fst (all_questions s)
    /\ fst (all_questions s') = fst (all_questions s0)
    /\ fst (next_question s') = fst (next_question s0)
    /\ exists q, hd_error (_questions s0) = Some q
         /\ fst (next_question s') = Return (Some (lit "Question 1: " ++ q)).
Proof.
  intros H0 cs s s'. apply new_session_init in H0.
  destruct H0 as (_ & _ & Hi & Hne & _).
  destruct (exec_all_frame cs s0) as (_ & _ & Hq). fold s in Hq.
  assert (Hnext : forall t, _index t = 0 -> _questions t = _questions s0 ->
            exists q, hd_error (_questions s0) = Some q
              /\ fst (next_question t) = Return (Some (lit "Question 1: " ++ q))).
  { intros t Ht Hqt. unfold next_question. rewrite Ht, Hqt.
    destruct (_questions s0) as [|q qs]; [congruence|].
    exists q. split; [reflexivity|].
    destruct (Z.geb_spec 0 (len (q :: qs))) as [Hge|_]; [|reflexivity].
    unfold len in Hge. simpl in Hge. lia. }
  repeat split; try (simpl; congruence).
  - destruct (Hnext s' eq_refl Hq) as (q & Hq1 & ->).
    destruct (Hnext s0 Hi eq_refl) as (q' & Hq' & ->). congruence.
  - apply Hnext; [reflexivity | exact Hq].
Qed.

Lemma reset_only_moves_cursor_witness :
  exists s0,
    value (new_session 0 None (lit "Data Scientist") 3) = Some s0
    /\ fst (next_question (snd (reset (exec_all [CallNext; CallPeek; CallNext] s0))))
       = fst (next_question s0).
Proof.
  eexists. split; [reflexivity|].
  apply (reset_only_moves_cursor 0 None (lit "Data Scientist") 3 _ eq_refl
           [CallNext; CallPeek; CallNext]).
Defined.

Lemma len_nonempty {A} (l : list A) : l <> [] -> 1 <= len l.
Proof. destruct l; [congruence|]. unfold len. simpl. lia. Qed.

Lemma peek_agrees_exec c s last called :
  peek_agrees s last called ->
  peek_agrees (exec c s)
    (last_returned [c] s last) (next_since_reset [c] called).
Proof.
  intros (Hr & Hne & Hp & Hc). pose proof (len_nonempty _ Hne) as Hlen.
  destruct c; cbn [last_returned next_since_reset exec].
  - destruct (next_question_in_range s Hr) as [[He ->] | (Hlt & q & Hq & ->)];
      cbn [fst snd].
    + destruct Hr as [Hlo Hhi].
      repeat split; auto; try discriminate; intros; lia.
    + destruct Hr as [Hlo Hhi].
      repeat split; cbn; auto; try discriminate; try (intros; lia).
      unfold peek_current. cbn.
      destruct (Z.eqb_spec (_index s + 1) 0); [lia|].
      replace (_index s + 1 - 1) with (_index s) by lia.
      rewrite Hq. reflexivity.
  - rewrite peek_current_frame. unfold peek_agrees. tauto.
  - cbn. unfold peek_agrees. tauto.
  - destruct Hr as [Hlo Hhi]. repeat split; cbn; auto; lia.
  - cbn. unfold peek_agrees. tauto.
Qed.

Lemma peek_agrees_exec_all cs : forall s last called,
  peek_agrees s last called ->
  peek_agrees (exec_all cs s) (last_returned cs s last) (next_since_reset cs called).
Proof.
  induction cs as [|c cs IH]; intros s last called H; [exact H|].
  apply (peek_agrees_exec c) in H.
  apply IH in H. destruct c; exact H.
Qed.

Lemma peek_agrees_none s last called :
  peek_agrees s last called -> (last = None <-> called = false).
Proof.
  intros ([Hlo Hhi] & _ & Hp & Hc). rewrite Hc.
  unfold peek_current in Hp. destruct (Z.eqb_spec (_index s) 0) as [E|E].
  - cbn in Hp. injection Hp as <-. tauto.
  - destruct (getitem_in_range (_questions s) (_index s - 1)) as (q & Hq); [lia|].
    rewrite Hq in Hp. cbn in Hp. injection Hp as <-. split; [discriminate | tauto].
Qed.

(** C10, as stated, fails: after [next_question] and then [reset],
    [peek_current] returns [None] although [next_question] was called. *)
Lemma peek_current_none_after_reset :
  In CallNext [CallNext; CallReset]
  /\ option_map (fun s0 => fst (peek_current (exec_all [CallNext; CallReset] s0)))
       (value (new_session 0 None (lit "Data Scientist") 3))
     = Some (Return None).
Proof. split; [left; reflexivity | reflexivity]. Qed.

(** C10, amended: after any calls on a created session, [peek_current]
    returns the question that [next_question] returned last since the
    session was created or last reset, under the same label, and leaves the
    session as it is; it returns [None] exactly when [next_question] was not
    called since the session was created or last reset. *)
Theorem peek_current_returns_last fuel MODEL title n s0 :
  value (new_session fuel MODEL title n) = Some s0 ->
  forall cs,
    let s := exec_all cs s0 in
    peek_current s = (Return (last_returned cs s0 None), s)
    /\ (last_returned cs s0 None = None <-> next_since_reset cs false = false).
Proof.
  intros H0 cs s.
  assert (Hinit : peek_agrees s0 None false).
  { pose proof (new_session_cursor_in_range _ _ _ _ _ H0) as Hr.
    apply new_session_init in H0. destruct H0 as (_ & _ & Hi & Hne & _).
    repeat split; auto; try apply Hr.
    unfold peek_current. rewrite Hi. reflexivity. }
  apply (peek_agrees_exec_all cs) in Hinit. fold s in Hinit.
  split.
  - destruct Hinit as (_ & _ & Hp & _).
    rewrite (surjective_pairing (peek_current s)), Hp, peek_current_frame. reflexivity.
  - eapply peek_agrees_none. exact Hinit.
Qed.

Lemma peek_current_returns_last_witness :
  exists s0,
    value (new_session 0 None (lit "Data Scientist") 3) = Some s0
    /\ peek_current (exec_all [CallNext; CallNext; CallReset; CallNext; CallHasNext] s0)
       = (Return (Some (lit "Question 1: Why should we hire you?")),
          exec_all [CallNext; CallNext; CallReset; CallNext; CallHasNext] s0).
Proof.
  eexists. split; [reflexivity|].
  apply (peek_current_returns_last 0 None (lit "Data Scientist") 3 _ eq_refl
           [CallNext; CallNext; CallReset; CallNext; CallHasNext]).
Defined.

(** ** Further properties of [generate_questions] *)

Lemma str_eqb_eq a : forall b, str_eqb a b = true <-> a = b.
Proof.
  induction a as [|x a IH]; intros [|y b]; simpl; split; try congruence; try discriminate.
  - intros H. apply andb_prop in H. destruct H as [Hx Hab].
    apply N.eqb_eq in Hx. apply IH in Hab. congruence.
  - intros [= -> ->]. rewrite N.eqb_refl. apply IH. reflexivity.
Qed.

Lemma str_in_In q l : str_in q l = true <-> In q l.
Proof.
  unfold str_in. rewrite existsb_exists. split.
  - intros (x & Hx & E). apply str_eqb_eq in E. subst. exact Hx.
  - intros H. exists q. split; [exact H | apply str_eqb_eq; reflexivity].
Qed.

Lemma NoDup_firstn {A} n (l : list A) : NoDup l -> NoDup (firstn n l).
Proof.
  intros H. rewrite <- (firstn_skipn n l) in H.
  eapply NoDup_app_remove_r. exact H.
Qed.

Lemma fallback_questions_NoDup : NoDup FALLBACK_QUESTIONS.
Proof.
  assert (H : forall l : list str,
    (fix check (l : list str) : bool :=
       match l with
       | [] => true
       | q :: l' => negb (str_in q l') && check l'
       end) l = true -> NoDup l).
  { induction l as [|q l IH]; intros Hc; constructor.
    - apply andb_prop in Hc. destruct Hc as [Hq _].
      intros Hin. apply str_in_In in Hin. rewrite Hin in Hq. discriminate.
    - apply IH. apply andb_prop in Hc. tauto. }
  apply H. reflexivity.
Qed.

(** Padding gives at least ten candidates. *)
Lemma padded_length questions :
  (10 <= length (questions ++ unused_fallback questions))%nat.
Proof.
  rewrite length_app. unfold unused_fallback.
  pose proof (filter_length (fun q => str_in q questions) FALLBACK_QUESTIONS) as Hf.
  change (length FALLBACK_QUESTIONS) with 10%nat in Hf.
  assert ((length (filter (fun q => str_in q questions) FALLBACK_QUESTIONS)
           <= length questions)%nat).
  { apply NoDup_incl_length.
    - apply NoDup_filter, fallback_questions_NoDup.
    - intros q Hq. apply filter_In in Hq. apply str_in_In. tauto. }
  lia.
Qed.

(** The result on a response text, for a count that is not negative. *)
Lemma generate_questions_text fuel (model : backend) title n t cleaned :
  title <> [] ->
  0 <= n ->
  model (questions_prompt title n) = Text t ->
  _clean_list_from_text fuel (response_text t) = Some cleaned ->
  generate_questions fuel (Some model) title n
  = Run [questions_prompt title n]
      (Some (firstn (Z.to_nat n) (cleaned ++ unused_fallback cleaned))).
Proof.
  intros Ht Hn Hm Hc. unfold generate_questions.
  rewrite (truthy_nonempty _ Ht). cbn [negb]. rewrite Hm, Hc.
  do 2 f_equal. f_equal.
  destruct (Z.ltb_spec (len cleaned) n) as [Hlt | Hge].
  - rewrite !slice_to_nonneg by exact Hn. rewrite firstn_firstn, Nat.min_id. reflexivity.
  - rewrite slice_to_nonneg by exact Hn. rewrite firstn_app.
    replace (Z.to_nat n - length cleaned)%nat with 0%nat by (unfold len in Hge; lia).
    rewrite firstn_0, app_nil_r. reflexivity.
Qed.

Lemma slice_to_firstn {A} (l : list A) n : exists k, slice_to l n = firstn k l.
Proof. unfold slice_to. destruct (n <? 0); eauto. Qed.

Lemma generate_questions_raises fuel (model : backend) title n e :
  title <> [] ->
  model (questions_prompt title n) = Raises e ->
  generate_questions fuel (Some model) title n
  = Run [questions_prompt title n]
      (Some ((lit "Error generating questions: " ++ e)
             :: firstn (Z.to_nat (n - 1)) FALLBACK_QUESTIONS)).
Proof.
  intros Ht He. unfold generate_questions. rewrite (truthy_nonempty _ Ht). cbn [negb].
  rewrite He, slice_to_nonneg by lia.
  replace (Z.to_nat (Z.max 0 (n - 1))) with (Z.to_nat (n - 1)) by lia.
  reflexivity.
Qed.

Lemma generate_questions_text_hangs fuel (model : backend) title n t :
  title <> [] ->
  model (questions_prompt title n) = Text t ->
  _clean_list_from_text fuel (response_text t) = None ->
  value (generate_questions fuel (Some model) title n) = None.
Proof.
  intros Ht Hm Hc. unfold generate_questions.
  rewrite (truthy_nonempty _ Ht). cbn [negb value]. rewrite Hm, Hc. reflexivity.
Qed.

Lemma generate_questions_count fuel MODEL title n questions :
  title <> [] ->
  1 <= n <= 10 ->
  value (generate_questions fuel MODEL title n) = Some questions ->
  len questions = n.
Proof.
  intros Ht Hn. destruct MODEL as [model|].
  - destruct (model (questions_prompt title n)) as [t|e] eqn:Hm.
    + destruct (_clean_list_from_text fuel (response_text t)) as [cleaned|] eqn:Hc.
      * rewrite (generate_questions_text fuel model title n t cleaned) by (auto; lia).
        cbn [value]. intros [= <-]. unfold len.
        rewrite firstn_length_le; [lia|].
        pose proof (padded_length cleaned). lia.
      * rewrite (generate_questions_text_hangs fuel model title n t) by auto.
        discriminate.
    + rewrite (generate_questions_raises fuel model title n e) by auto.
      cbn [value]. intros [= <-]. unfold len. cbn [length].
      rewrite firstn_length_le; [lia|].
      change (length FALLBACK_QUESTIONS) with 10%nat. lia.
  - rewrite generate_questions_fallback, slice_to_nonneg by (auto; lia).
    cbn [value]. intros [= <-]. unfold len.
    rewrite firstn_length_le; [lia|].
    change (length FALLBACK_QUESTIONS) with 10%nat. lia.
Qed.

(** X1: for a non-empty title and a count from 1 to 10, a call that returns
    returns exactly that many questions, whether there is no backend, the
    backend answers (with however few or many lines) or its call raises. *)
Theorem generate_questions_exact_count fuel MODEL title n questions :
  title <> [] ->
  1 <= n <= 10 ->
  value (generate_questions fuel MODEL title n) = Some questions ->
  len questions = n.
Proof. apply generate_questions_count. Qed.

Lemma generate_questions_exact_count_witness :
  len [lit "Tell me about yourself."; lit "Why data science?";
       lit "Why should we hire you?"; lit "What are your strengths?"] = 4.
Proof.
  apply (generate_questions_exact_count 1
           (Some (fun _ => Text (Some (lit "1. Tell me about yourself." ++ NL
                                        ++ lit "2. Why data science?"))))
           (lit "Data Scientist") 4);
    [discriminate | lia | reflexivity].
Defined.

(** X2: for a non-empty title and a count from 0 up that can be printed, on
    a response whose text has no stuck line [generate_questions] returns,
    with fuel of the text's length, the lines of the response without their
    markers followed by the fallback questions not among them, cut to the
    count: the backend's lines come first, and when they are pairwise
    different no question is returned twice. *)
Theorem generate_questions_pads_without_duplicates
    fuel (model : Raising.backend) title n t :
  title <> [] ->
  0 <= n ->
  Raising.printable n = true ->
  model (questions_prompt title n) = Raising.Responds t ->
  no_stuck_line (response_text t) = true ->
  (length (response_text t) <= fuel)%nat ->
  let cleaned := unmarked_lines (response_text t) in
  let questions := firstn (Z.to_nat n) (cleaned ++ unused_fallback cleaned) in
  Raising.generate_questions fuel (Some model) title n
    = Run [questions_prompt title n] (Raising.Returned questions)
  /\ firstn (length cleaned) questions = firstn (Z.to_nat n) cleaned
  /\ (NoDup cleaned -> NoDup questions).
Proof.
  intros Ht Hn Hp Hm Hs Hl cleaned questions.
  pose proof (clean_list_from_text_refines _ fuel Hs Hl) as Hc. fold cleaned in Hc.
  split; [|split].
  - rewrite (generate_questions_agrees fuel (fun _ => Text t) model title n Hp)
      by (rewrite Hm; reflexivity).
    rewrite (generate_questions_text fuel (fun _ => Text t) title n t cleaned) by auto.
    reflexivity.
  - unfold questions. rewrite firstn_firstn, firstn_app.
    destruct (Nat.le_ge_cases (length cleaned) (Z.to_nat n)) as [Hle | Hge].
    + rewrite Nat.min_l by exact Hle. rewrite Nat.sub_diag, firstn_0, app_nil_r.
      rewrite !firstn_all2 by lia. reflexivity.
    + rewrite Nat.min_r by exact Hge.
      replace (Z.to_nat n - length cleaned)%nat with 0%nat by lia.
      rewrite firstn_0, app_nil_r. reflexivity.
  - intros Hnd. apply NoDup_firstn. apply NoDup_app.
    + exact Hnd.
    + apply NoDup_filter, fallback_questions_NoDup.
    + intros q Hq Hin. apply filter_In in Hin. destruct Hin as [_ Hin].
      apply str_in_In in Hq. rewrite Hq in Hin. discriminate.
Qed.

Lemma generate_questions_pads_without_duplicates_witness :
  let cleaned :=
    unmarked_lines
      (response_text
         (Some (lit "1. Tell me about yourself." ++ NL ++ lit "2. Why should we hire you?"))) in
  let questions := firstn (Z.to_nat 4) (cleaned ++ unused_fallback cleaned) in
  Raising.generate_questions 60
    (Some (fun _ => Raising.Responds
                      (Some (lit "1. Tell me about yourself." ++ NL
                             ++ lit "2. Why should we hire you?"))))
    (lit "Data Scientist") 4
    = Run [questions_prompt (lit "Data Scientist") 4] (Raising.Returned questions)
  /\ firstn (length cleaned) questions = firstn (Z.to_nat 4) cleaned
  /\ (NoDup cleaned -> NoDup questions).
Proof.
  apply (generate_questions_pads_without_duplicates 60
           (fun _ => Raising.Responds
                       (Some (lit "1. Tell me about yourself." ++ NL
                              ++ lit "2. Why should we hire you?")))
           (lit "Data Scientist") 4
           (Some (lit "1. Tell me about yourself." ++ NL ++ lit "2. Why should we hire you?")));
    [discriminate | lia | reflexivity | reflexivity | reflexivity | vm_compute; lia].
Defined.

Example generate_questions_pads_sample :
  Raising.generate_questions 60
    (Some (fun _ => Raising.Responds
                      (Some (lit "1. Tell me about yourself." ++ NL
                             ++ lit "2. Why should we hire you?"))))
    (lit "Data Scientist") 4
  = Run [questions_prompt (lit "Data Scientist") 4]
        (Raising.Returned
           [lit "Tell me about yourself."; lit "Why should we hire you?";
            lit "What are your strengths?"; lit "What are your weaknesses?"]).
Proof. reflexivity. Qed.

Lemma clean_head_nonempty l : forallb clean_head l = true -> Forall (fun q : str => q <> []) l.
Proof.
  intros H. apply Forall_forall. intros q Hq.
  rewrite forallb_forall in H. apply H in Hq. destruct q; [discriminate | discriminate].
Qed.

Lemma Forall_slice_to {A} (P : A -> Prop) (l : list A) n : Forall P l -> Forall P (slice_to l n).
Proof.
  intros H. destruct (slice_to_firstn l n) as (k & ->). apply Forall_firstn, H.
Qed.

(** X3: whatever the title, the count and the backend, a call that returns
    returns no empty string among its questions. *)
Theorem generate_questions_no_empty_question fuel MODEL title n questions :
  value (generate_questions fuel MODEL title n) = Some questions ->
  Forall (fun q => q <> []) questions.
Proof.
  unfold generate_questions.
  pose proof fallback_questions_nonempty as Hf.
  remember FALLBACK_QUESTIONS as fallback eqn:Ef. clear Ef.
  destruct (truthy title); cbn [negb value].
  - destruct MODEL as [model|]; cbn [value].
    + destruct (model (questions_prompt title n)) as [t|e].
      * destruct (_clean_list_from_text fuel (response_text t)) as [cleaned|] eqn:Hc;
          [|discriminate].
        apply clean_list_from_text_sound in Hc. destruct Hc as [_ Hh].
        apply clean_head_nonempty in Hh.
        intros [= <-]. apply Forall_slice_to.
        destruct (len cleaned <? n); [|exact Hh].
        apply Forall_slice_to, Forall_app. split; [exact Hh|].
        apply Forall_forall. intros q Hq. apply filter_In in Hq. destruct Hq as [Hq _].
        rewrite Forall_forall in Hf. auto.
      * intros [= <-]. constructor; [discriminate|].
        apply Forall_slice_to, Hf.
    + intros [= <-]. apply Forall_slice_to, Hf.
  - intros [= <-]. repeat constructor. discriminate.
Qed.

Lemma generate_questions_no_empty_question_witness :
  Forall (fun q : str => q <> [])
    [lit "Error generating questions: 503 Service Unavailable";
     lit "Why should we hire you?"; lit "Tell me about yourself."].
Proof.
  apply (generate_questions_no_empty_question 0 (Some failing_backend)
           (lit "Data Scientist") 3).
  reflexivity.
Defined.

(** X4: without a backend the count is used as a slice bound: a count above
    ten gives the ten fallback questions, zero gives none, and a negative
    count -k gives all but the last k, not an empty list. *)
Theorem generate_questions_fallback_any_count fuel title n :
  title <> [] ->
  let k := if n <? 0 then 10 + n else n in
  generate_questions fuel None title n
  = Run [] (Some (firstn (Z.to_nat k) FALLBACK_QUESTIONS))
  /\ len (firstn (Z.to_nat k) FALLBACK_QUESTIONS) = Z.max 0 (Z.min 10 k).
Proof.
  intros Ht k. split.
  - rewrite generate_questions_fallback by exact Ht. unfold slice_to, k.
    destruct (n <? 0); reflexivity.
  - unfold len. rewrite length_firstn.
    change (length FALLBACK_QUESTIONS) with 10%nat. lia.
Qed.

Lemma generate_questions_fallback_any_count_witness :
  generate_questions 0 None (lit "Data Scientist") (-3)
  = Run [] (Some (firstn 7 FALLBACK_QUESTIONS)).
Proof.
  apply (generate_questions_fallback_any_count 0 (lit "Data Scientist") (-3)).
  discriminate.
Defined.

(** With a count of at least one, a returned list has at most that many
    questions. *)
Lemma generate_questions_length_le fuel MODEL title n questions :
  1 <= n ->
  value (generate_questions fuel MODEL title n) = Some questions ->
  len questions <= n.
Proof.
  intros Hn. unfold generate_questions.
  assert (Hs : forall l : list str, len (slice_to l n) <= n).
  { intros l. rewrite slice_to_nonneg by lia. unfold len.
    pose proof (firstn_le_length (Z.to_nat n) l). lia. }
  destruct (truthy title); cbn [negb value].
  - destruct MODEL as [model|]; cbn [value].
    + destruct (model (questions_prompt title n)) as [t|e].
      * destruct (_clean_list_from_text fuel (response_text t)) as [cleaned|];
          [|discriminate].
        intros [= <-]. apply Hs.
      * intros [= <-]. rewrite slice_to_nonneg by lia. unfold len. cbn [length].
        pose proof (firstn_le_length (Z.to_nat (Z.max 0 (n - 1))) FALLBACK_QUESTIONS). lia.
    + intros [= <-]. apply Hs.
  - intros [= <-]. unfold len. simpl. lia.
Qed.

(** X5: a session that is created holds at least one question and at most
    [n_questions] of them, where [n_questions] is the requested count
    raised to 1 when it is lower. *)
Theorem session_question_count fuel MODEL title n s0 :
  value (new_session fuel MODEL title n) = Some s0 ->
  n_questions s0 = Z.max 1 n
  /\ 1 <= len (_questions s0) <= n_questions s0.
Proof.
  intros H. apply new_session_init in H.
  destruct H as (_ & Hn & _ & Hne & Hg). split; [exact Hn|]. split.
  - apply len_nonempty, Hne.
  - rewrite Hn. eapply generate_questions_length_le; [|exact Hg]. lia.
Qed.

Lemma session_question_count_witness :
  exists s0,
    value (new_session 0 None (lit "Data Scientist") (-2)) = Some s0
    /\ n_questions s0 = Z.max 1 (-2)
    /\ 1 <= len (_questions s0) <= n_questions s0.
Proof.
  eexists. split; [reflexivity|].
  apply (session_question_count 0 None (lit "Data Scientist") (-2) _ eq_refl).
Defined.

(** ** Lines: [splitlines] after [join] *)

Lemma splitlines_from_line l : forall cur rest,
  no_linebreak l = true ->
  splitlines_from false cur (l ++ NL ++ rest) = (cur ++ l) :: splitlines_from false [] rest.
Proof.
  induction l as [|c l IH]; intros cur rest H.
  - rewrite app_nil_r. reflexivity.
  - unfold no_linebreak in H. cbn [forallb] in H. apply andb_prop in H.
    destruct H as [Hc Hl]. apply negb_true_iff in Hc.
    cbn [app splitlines_from andb]. rewrite Hc.
    rewrite IH by exact Hl. rewrite <- app_assoc. reflexivity.
Qed.

Lemma splitlines_from_last l : forall cur,
  no_linebreak l = true -> cur ++ l <> [] ->
  splitlines_from false cur l = [cur ++ l].
Proof.
  induction l as [|c l IH]; intros cur H Hne.
  - rewrite app_nil_r in *. cbn. destruct cur; [congruence | reflexivity].
  - unfold no_linebreak in H. cbn [forallb] in H. apply andb_prop in H.
    destruct H as [Hc Hl]. apply negb_true_iff in Hc.
    cbn [splitlines_from andb]. rewrite Hc.
    rewrite IH; [rewrite <- app_assoc; reflexivity | exact Hl |].
    destruct cur; discriminate.
Qed.

(** Lines joined by newlines split into the same lines again. *)
Lemma splitlines_join lines :
  Forall tidy_line lines -> splitlines (join NL lines) = lines.
Proof.
  induction 1 as [|l ls (Hne & _ & Hlb) Hls IH]; [reflexivity|].
  destruct ls as [|l2 ls].
  - cbn [join]. unfold splitlines. rewrite splitlines_from_last; auto.
  - change (join NL (l :: l2 :: ls)) with (l ++ NL ++ join NL (l2 :: ls)).
    unfold splitlines in *. rewrite splitlines_from_line by exact Hlb.
    rewrite IH. reflexivity.
Qed.

Lemma splitlines_from_no_linebreak s : forall after_cr cur,
  no_linebreak cur = true ->
  Forall (fun l => no_linebreak l = true) (splitlines_from after_cr cur s).
Proof.
  induction s as [|c s IH]; intros after_cr cur Hcur; cbn [splitlines_from].
  - destruct cur; repeat constructor. exact Hcur.
  - destruct (after_cr && (c =? 10)%N); [apply IH, Hcur|].
    destruct (is_linebreak c) eqn:Hc.
    + constructor; [exact Hcur | apply IH; reflexivity].
    + apply IH. unfold no_linebreak in *. rewrite forallb_app, Hcur.
      cbn [forallb]. rewrite Hc. reflexivity.
Qed.

(** The lines that the engine and the feedback area keep are tidy. *)
Lemma stripped_filter_tidy raw :
  Forall (fun l => no_linebreak l = true) raw ->
  Forall tidy_line (map strip (filter (fun ln => truthy (strip ln)) raw)).
Proof.
  induction 1 as [|l raw Hl Hraw IH]; [constructor|].
  cbn [filter]. destruct (strip l) as [|c r] eqn:E; cbn [truthy]; [exact IH|].
  cbn [map]. constructor; [|exact IH].
  rewrite E. repeat split.
  - discriminate.
  - rewrite <- E. apply strip_idem.
  - rewrite <- E. apply forallb_strip, Hl.
Qed.

Lemma stripped_lines_tidy text : Forall tidy_line (stripped_lines text).
Proof.
  apply stripped_filter_tidy. apply splitlines_from_no_linebreak. reflexivity.
Qed.

Lemma stripped_filter_fix lines :
  Forall tidy_line lines ->
  map strip (filter (fun ln => truthy (strip ln)) lines) = lines.
Proof.
  induction 1 as [|l ls (Hne & Hs & _) Hls IH]; [reflexivity|].
  cbn [filter]. rewrite Hs. rewrite (truthy_nonempty _ Hne).
  cbn [map]. rewrite Hs, IH. reflexivity.
Qed.

Lemma join_nonempty sep l ls : l <> [] -> join sep (l :: ls) <> [].
Proof. destruct l; [congruence|]. destruct ls; discriminate. Qed.

(** ** Further properties of [get_feedback_on_answer] *)

(** X6: whatever the backend does, [get_feedback_on_answer] returns a text
    that is not empty, and it sends at most one prompt. *)
Theorem feedback_never_empty MODEL question answer :
  value (get_feedback_on_answer MODEL question answer) <> []
  /\ (length (sent (get_feedback_on_answer MODEL question answer)) <= 1)%nat.
Proof.
  unfold get_feedback_on_answer.
  destruct (negb (truthy answer) || negb (truthy (strip answer)));
    [split; [discriminate | cbn; lia]|].
  destruct MODEL as [model|]; cbn [value sent length].
  - split; [|lia].
    destruct (model (feedback_prompt question answer)) as [t|e]; [|discriminate].
    pose proof (stripped_lines_tidy (response_text t)) as Ht.
    destruct (stripped_lines (response_text t)) as [|l ls]; cbn [truthy negb];
      [discriminate|].
    apply join_nonempty. inversion Ht as [|? ? (Hne & _) _]. exact Hne.
  - split; [|lia]. destruct (len (strip answer) <? 30); discriminate.
Qed.

(** X7: on a response text with at least one line that is not blank, the
    feedback for an answer that is not blank is made of these lines, each
    stripped, joined by newlines: splitting it into lines gives them back,
    so it has no blank line and no indentation.  Without such a line it is
    the fixed notice.  One prompt is sent. *)
Theorem feedback_keeps_backend_lines (model : backend) question answer t :
  forallb isspace answer = false ->
  model (feedback_prompt question answer) = Text t ->
  let r := get_feedback_on_answer (Some model) question answer in
  sent r = [feedback_prompt question answer]
  /\ (stripped_lines (response_text t) = [] ->
      value r = lit "No feedback returned. Try again.")
  /\ (stripped_lines (response_text t) <> [] ->
      value r = join NL (stripped_lines (response_text t))
      /\ splitlines (value r) = stripped_lines (response_text t))
  /\ Forall tidy_line (stripped_lines (response_text t)).
Proof.
  intros Ha Hm. apply nonblank_strip in Ha. destruct Ha as [Ha Hs].
  unfold get_feedback_on_answer.
  rewrite (truthy_nonempty _ Ha), (truthy_nonempty _ Hs). cbn [negb orb sent value].
  rewrite Hm. pose proof (stripped_lines_tidy (response_text t)) as Ht.
  split; [reflexivity|]. split; [|split; [|exact Ht]].
  - intros ->. reflexivity.
  - intros Hne. rewrite (truthy_nonempty _ Hne). cbn [negb].
    split; [reflexivity | apply splitlines_join, Ht].
Qed.

Lemma feedback_keeps_backend_lines_witness :
  splitlines
    (value (get_feedback_on_answer
              (Some (fun _ => Text (Some (NL ++ lit "  1) 80/100 " ++ NL ++ NL ++ lit "2) Good."))))
              (lit "Why?") (lit "Because.")))
  = [lit "1) 80/100"; lit "2) Good."].
Proof.
  apply (feedback_keeps_backend_lines
           (fun _ => Text (Some (NL ++ lit "  1) 80/100 " ++ NL ++ NL ++ lit "2) Good.")))
           (lit "Why?") (lit "Because.")
           (Some (NL ++ lit "  1) 80/100 " ++ NL ++ NL ++ lit "2) Good.")));
    [reflexivity | reflexivity | discriminate].
Defined.

(** ** Further properties of the session *)




(** X8: in a session after any calls, [has_next] tells what the next
    [next_question] does: true exactly when it returns a question, false
    exactly when it returns [None]. *)
Theorem has_next_tells_next_question fuel MODEL title n s0 :
  value (new_session fuel MODEL title n) = Some s0 ->
  forall cs,
    let s := exec_all cs s0 in
    (fst (has_next s) = true <-> exists q, fst (next_question s) = Return (Some q))
    /\ (fst (has_next s) = false <-> fst (next_question s) = Return None).
Proof.
  intros H0 cs s.
  pose proof (exec_all_cursor_in_range cs s0 (new_session_cursor_in_range _ _ _ _ _ H0)) as Hr.
  fold s in Hr. cbn [has_next fst].
  destruct (next_question_in_range s Hr) as [[He ->] | (Hlt & q & _ & ->)]; cbn [fst].
  - rewrite He, Z.ltb_irrefl. split; split; try discriminate; auto.
    intros (q & Hq). discriminate.
  - apply Z.ltb_lt in Hlt. rewrite Hlt. split; split; try discriminate; eauto.
Qed.

Lemma has_next_tells_next_question_witness :
  exists s0,
    value (new_session 0 None (lit "Data Scientist") 2) = Some s0
    /\ (fst (has_next (exec_all [CallNext; CallNext] s0)) = false
        <-> fst (next_question (exec_all [CallNext; CallNext] s0)) = Return None).
Proof.
  eexists. split; [reflexivity|].
  apply (has_next_tells_next_question 0 None (lit "Data Scientist") 2 _ eq_refl
           [CallNext; CallNext]).
Defined.





(** ** [int] of a printed integer *)

Lemma lit_cons a s : lit (String a s) = N_of_ascii a :: lit s.
Proof. reflexivity. Qed.

Lemma uint_chars_digits d :
  forallb ascii_digit (lit (NilEmpty.string_of_uint d)) = true.
Proof.
  induction d; cbn [NilEmpty.string_of_uint]; [reflexivity | ..];
    rewrite lit_cons; cbn [forallb]; rewrite IHd; reflexivity.
Qed.

Lemma uint_chars_value d :
  value_of_digits_rev (lit (NilEmpty.string_of_uint d))
  = Z.of_N (DecimalPos.Unsigned.of_lu d).
Proof.
  induction d; cbn [NilEmpty.string_of_uint DecimalPos.Unsigned.of_lu];
    [reflexivity | ..];
    rewrite lit_cons; cbn [value_of_digits_rev]; rewrite IHd;
    match goal with |- Z.of_N (N_of_ascii ?a - 48) + _ = _ =>
      let v := eval vm_compute in (Z.of_N (N_of_ascii a - 48)) in
      change (Z.of_N (N_of_ascii a - 48)) with v
    end; lia.
Qed.

Lemma uint_chars_revapp d : forall d',
  lit (NilEmpty.string_of_uint (Decimal.revapp d d'))
  = rev (lit (NilEmpty.string_of_uint d)) ++ lit (NilEmpty.string_of_uint d').
Proof.
  induction d; intros d'; cbn [Decimal.revapp NilEmpty.string_of_uint];
    [reflexivity | ..];
    rewrite IHd, lit_cons; cbn [NilEmpty.string_of_uint rev];
    rewrite lit_cons, <- app_assoc; reflexivity.
Qed.

Lemma uint_chars_rev_value d :
  value_of_digits_rev (rev (lit (NilEmpty.string_of_uint d))) = Z.of_N (Pos.of_uint d).
Proof.
  rewrite DecimalPos.Unsigned.of_uint_alt, <- uint_chars_value.
  unfold Decimal.rev. rewrite uint_chars_revapp. cbn [NilEmpty.string_of_uint].
  change (lit "") with (@nil char). rewrite app_nil_r. reflexivity.
Qed.

Lemma uint_chars_nonempty d : d <> Decimal.Nil -> lit (NilEmpty.string_of_uint d) <> [].
Proof.
  destruct d; [congruence | ..]; intros _;
    cbn [NilEmpty.string_of_uint]; rewrite lit_cons; discriminate.
Qed.

Lemma ascii_digit_range c : ascii_digit c = true -> (48 <= c <= 57)%N.
Proof.
  unfold ascii_digit. intros H. apply andb_prop in H. destruct H as [H1 H2].
  apply N.leb_le in H1, H2. lia.
Qed.

Lemma int_ascii_digits s : forallb ascii_digit s = true -> map int_ascii s = s.
Proof.
  induction s as [|c s IH]; [reflexivity|]. cbn [forallb map]. intros H.
  apply andb_prop in H. destruct H as [Hc Hs]. rewrite IH by exact Hs.
  apply ascii_digit_range in Hc. unfold int_ascii.
  destruct (N.ltb_spec c 127); [reflexivity | lia].
Qed.

Lemma scan_all_digits s : forall acc,
  forallb ascii_digit s = true -> scan_digits false acc s = Some (rev s ++ acc, []).
Proof.
  induction s as [|c s IH]; intros acc H; [reflexivity|].
  cbn [forallb] in H. apply andb_prop in H. destruct H as [Hc Hs].
  cbn [scan_digits rev]. rewrite Hc, IH by exact Hs.
  rewrite <- app_assoc. reflexivity.
Qed.

(** [int] reads a run of ASCII digits as its decimal value, with or without
    a minus sign before it. *)
Lemma int_of_digits (negative : bool) s :
  s <> [] -> forallb ascii_digit s = true -> (length s <= INT_MAX_STR_DIGITS)%nat ->
  int_of_str ((if negative then [45%N] else []) ++ s)
  = Some (if negative then - value_of_digits_rev (rev s) else value_of_digits_rev (rev s)).
Proof.
  intros Hne Hd Hl. destruct s as [|c s]; [congruence|].
  pose proof Hd as Hd'. cbn [forallb] in Hd'. apply andb_prop in Hd'.
  destruct Hd' as [Hc _]. pose proof (ascii_digit_range c Hc) as Hr.
  assert (Hsp : int_space c = false).
  { unfold int_space. destruct (N.leb_spec 9 c), (N.leb_spec c 13), (N.eqb_spec c 32);
      cbn; try reflexivity; lia. }
  assert (H43 : (c =? 43)%N = false) by (apply N.eqb_neq; lia).
  assert (H45 : (c =? 45)%N = false) by (apply N.eqb_neq; lia).
  assert (H95 : (c =? 95)%N = false) by (apply N.eqb_neq; lia).
  assert (Hlen : (INT_MAX_STR_DIGITS <? length (rev (c :: s) ++ []))%nat = false).
  { apply Nat.ltb_ge. rewrite app_nil_r, length_rev. exact Hl. }
  destruct negative; cbn [app]; unfold int_of_str.
  - change (map int_ascii (45%N :: c :: s)) with (45%N :: map int_ascii (c :: s)).
    rewrite (int_ascii_digits (c :: s)) by exact Hd.
    change (drop_while int_space (45%N :: c :: s)) with (45%N :: c :: s).
    cbv beta iota.
    change ((45 =? 43)%N) with false. change ((45 =? 45)%N) with true. cbv beta iota.
    rewrite H95, scan_all_digits by exact Hd.
    destruct (rev (c :: s) ++ []) as [|z zs] eqn:E.
    { rewrite app_nil_r in E. apply (f_equal (@length _)) in E.
      rewrite length_rev in E. discriminate. }
    cbn [drop_while]. rewrite Hlen. rewrite <- E, app_nil_r. reflexivity.
  - rewrite (int_ascii_digits (c :: s)) by exact Hd.
    cbn [drop_while]. rewrite Hsp, H43, H45, H95, scan_all_digits by exact Hd.
    destruct (rev (c :: s) ++ []) as [|z zs] eqn:E.
    { rewrite app_nil_r in E. apply (f_equal (@length _)) in E.
      rewrite length_rev in E. discriminate. }
    cbn [drop_while]. rewrite Hlen. rewrite <- E, app_nil_r. reflexivity.
Qed.

(** A printed integer: an optional minus sign and digits. *)
Lemma str_of_int_shape n :
  exists ds,
    str_of_int n = (if n <? 0 then [45%N] else []) ++ ds
    /\ ds <> [] /\ forallb ascii_digit ds = true
    /\ value_of_digits_rev (rev ds) = Z.abs n.
Proof.
  unfold str_of_int. destruct n as [|p|p]; cbn [Z.to_int Z.ltb Z.compare Z.abs].
  - exists (lit "0"). repeat split; discriminate.
  - exists (lit (NilEmpty.string_of_uint (Pos.to_uint p))).
    pose proof (DecimalPos.Unsigned.to_uint_nonnil p) as Hnn.
    repeat split.
    + cbn [NilZero.string_of_int NilZero.string_of_uint].
      destruct (Pos.to_uint p); [congruence | ..]; reflexivity.
    + apply uint_chars_nonempty, Hnn.
    + apply uint_chars_digits.
    + rewrite uint_chars_rev_value, DecimalPos.Unsigned.of_to. reflexivity.
  - exists (lit (NilEmpty.string_of_uint (Pos.to_uint p))).
    pose proof (DecimalPos.Unsigned.to_uint_nonnil p) as Hnn.
    repeat split.
    + cbn [NilZero.string_of_int NilZero.string_of_uint]. rewrite lit_cons.
      destruct (Pos.to_uint p); [congruence | ..]; reflexivity.
    + apply uint_chars_nonempty, Hnn.
    + apply uint_chars_digits.
    + rewrite uint_chars_rev_value, DecimalPos.Unsigned.of_to. reflexivity.
Qed.

(** [int(str(n))] is [n], within the limit on digits. *)
Lemma int_of_str_of_int n :
  (length (str_of_int n) <= INT_MAX_STR_DIGITS)%nat ->
  int_of_str (str_of_int n) = Some n.
Proof.
  intros Hl. destruct (str_of_int_shape n) as (ds & E & Hne & Hd & Hv).
  rewrite E in *. clear E. destruct (Z.ltb_spec n 0); cbn [app length] in Hl.
  - rewrite (int_of_digits true) by (auto; lia). apply f_equal.
    transitivity (- Z.abs n); [f_equal; exact Hv | lia].
  - rewrite (int_of_digits false) by (auto; lia). apply f_equal.
    transitivity (Z.abs n); [exact Hv | lia].
Qed.

(** ** The label of a question and what the application reads from it *)

Lemma ascii_digit_not_space c : ascii_digit c = true -> isspace c = false.
Proof.
  intros H. apply ascii_digit_range in H.
  unfold isspace, SPACE_RANGES, in_ranges.
  repeat match goal with
         | |- context [(?a <=? ?b)%N] => destruct (N.leb_spec a b); try lia
         end; reflexivity.
Qed.

Lemma strip_fix_ends s :
  (forall a m, s = a :: m -> isspace a = false) ->
  (forall m z, s = m ++ [z] -> isspace z = false) ->
  strip s = s.
Proof.
  intros Hhd Hlast. rewrite strip_rstripped.
  - destruct s as [|a m]; [reflexivity|].
    eapply drop_while_fix; [reflexivity | eapply Hhd; reflexivity].
  - unfold rstripped. destruct (rev s) as [|z r] eqn:E; [reflexivity|].
    eapply drop_while_fix; [reflexivity|]. apply (Hlast (rev r) z).
    rewrite <- (rev_involutive s), E. reflexivity.
Qed.

Lemma strip_leading_space s : strip (32%N :: s) = strip s.
Proof. reflexivity. Qed.

Lemma str_of_int_chars n :
  Forall (fun c => c = 45%N \/ ascii_digit c = true) (str_of_int n).
Proof.
  destruct (str_of_int_shape n) as (ds & -> & _ & Hd & _).
  apply Forall_app. split.
  - destruct (n <? 0); repeat constructor.
  - apply Forall_forall. intros c Hc. right.
    rewrite forallb_forall in Hd. auto.
Qed.

Lemma str_of_int_last n m z : str_of_int n = m ++ [z] -> ascii_digit z = true.
Proof.
  destruct (str_of_int_shape n) as (ds & -> & Hne & Hd & _).
  destruct (exists_last Hne) as (ds' & z' & ->).
  rewrite app_assoc. intros H. apply app_inj_tail in H. destruct H as [_ <-].
  rewrite forallb_app in Hd. apply andb_prop in Hd. destruct Hd as [_ Hz].
  cbn in Hz. rewrite andb_true_r in Hz. exact Hz.
Qed.

Lemma str_of_int_nonempty n : str_of_int n <> [].
Proof.
  destruct (str_of_int_shape n) as (ds & -> & Hne & _).
  destruct (n <? 0); [discriminate | exact Hne].
Qed.

Lemma strip_str_of_int n : strip (str_of_int n) = str_of_int n.
Proof.
  apply strip_fix_ends.
  - intros a m E. pose proof (str_of_int_chars n) as H. rewrite E in H.
    inversion H as [|? ? [-> | Ha] _]; [reflexivity | apply ascii_digit_not_space, Ha].
  - intros m z E. apply ascii_digit_not_space. eapply str_of_int_last. exact E.
Qed.

Lemma split_once_from_first sep pre : forall cur post,
  char_in sep pre = false ->
  split_once_from sep cur (pre ++ sep :: post) = [cur ++ pre; post].
Proof.
  induction pre as [|c pre IH]; intros cur post H; cbn [app split_once_from].
  - rewrite N.eqb_refl, app_nil_r. reflexivity.
  - unfold char_in in H. cbn [existsb] in H. apply orb_false_elim in H.
    destruct H as [Hc Hpre]. rewrite N.eqb_sym in Hc. rewrite Hc.
    rewrite IH by exact Hpre. rewrite <- app_assoc. reflexivity.
Qed.

Lemma starts_with_app old rest : starts_with old (old ++ rest) = true.
Proof.
  induction old as [|c old IH]; [reflexivity|].
  cbn [app starts_with]. rewrite N.eqb_refl. exact IH.
Qed.

Lemma replace_from_skip old new a : forall rest,
  replace_from old new (length a) (a ++ rest) = replace_from old new 0 rest.
Proof.
  induction a as [|c a IH]; intros rest; [destruct rest; reflexivity|].
  cbn [length app replace_from]. apply IH.
Qed.

Lemma replace_from_prefix h old new rest :
  replace_from (h :: old) new 0 ((h :: old) ++ rest)
  = new ++ replace_from (h :: old) new 0 rest.
Proof.
  cbn [app replace_from].
  change (h :: old ++ rest) with ((h :: old) ++ rest). rewrite starts_with_app.
  replace (length (h :: old) - 1)%nat with (length old) by (cbn [length]; lia).
  rewrite replace_from_skip. reflexivity.
Qed.

Lemma replace_from_no_head h old new s :
  Forall (fun c => c <> h) s -> replace_from (h :: old) new 0 s = s.
Proof.
  induction 1 as [|c s Hc Hs IH]; [reflexivity|].
  cbn [replace_from starts_with].
  destruct (N.eqb_spec h c) as [E|_]; [congruence|].
  cbn [andb]. rewrite IH. reflexivity.
Qed.

Lemma digit_or_minus_not c x :
  (x <> 45)%N -> (x < 48 \/ 57 < x)%N ->
  c = 45%N \/ ascii_digit c = true -> c <> x.
Proof.
  intros H1 H2 [-> | Hd]; [congruence|].
  apply ascii_digit_range in Hd. lia.
Qed.

(** The label of a question read back: the position and the stripped
    question. *)
Lemma parse_question_label n q n_blocks :
  (length (str_of_int n) <= INT_MAX_STR_DIGITS)%nat ->
  parse_question (question_label n q) n_blocks = inr (n, strip q).
Proof.
  intros Hl. unfold parse_question, question_label.
  pose proof (str_of_int_chars n) as Hchars.
  assert (Hcolon : char_in COLON (lit "Question " ++ str_of_int n) = false).
  { unfold char_in. rewrite existsb_app. apply orb_false_intro; [reflexivity|].
    apply not_true_is_false. intros H. apply existsb_exists in H.
    destruct H as (c & Hc & E). apply N.eqb_eq in E. subst c.
    rewrite Forall_forall in Hchars. apply Hchars in Hc.
    revert Hc. unfold COLON.
    intros Hc. apply (digit_or_minus_not _ 58%N) in Hc; [congruence | lia | lia]. }
  replace (lit "Question " ++ str_of_int n ++ lit ": " ++ q)
    with ((lit "Question " ++ str_of_int n) ++ COLON :: (32%N :: q))
    by (rewrite <- app_assoc; reflexivity).
  replace (char_in COLON ((lit "Question " ++ str_of_int n) ++ COLON :: 32%N :: q))
    with true
    by (unfold char_in; rewrite existsb_app; cbn [existsb];
        rewrite N.eqb_refl, orb_true_r; reflexivity).
  unfold split_once. rewrite split_once_from_first by exact Hcolon.
  cbn [app]. unfold getitem. cbn [Z.ltb Z.compare].
  change (Z.to_nat 0) with 0%nat. change (Z.to_nat 1) with 1%nat. cbn [nth_error].
  assert (Hlabel : strip (lit "Question " ++ str_of_int n) = lit "Question " ++ str_of_int n).
  { apply strip_fix_ends.
    - intros a m E. injection E as <- _. reflexivity.
    - intros m z E. apply ascii_digit_not_space.
      destruct (exists_last (str_of_int_nonempty n)) as (m' & z' & E').
      rewrite E', app_assoc in E. apply app_inj_tail in E. destruct E as [_ <-].
      eapply str_of_int_last. exact E'. }
  rewrite Hlabel.
  change (lit "Question " ++ str_of_int n)
    with ((81%N :: lit "uestion") ++ 32%N :: str_of_int n).
  unfold replace. change (lit "Question") with (81%N :: lit "uestion").
  rewrite replace_from_prefix. cbn [app].
  rewrite replace_from_no_head.
  - change (strip (32%N :: str_of_int n)) with (strip (str_of_int n)).
    rewrite strip_str_of_int, int_of_str_of_int by exact Hl.
    reflexivity.
  - constructor; [discriminate|].
    eapply Forall_impl; [|exact Hchars].
    intros c Hc. apply digit_or_minus_not; [lia | lia | exact Hc].
Qed.

(** X10: the application reads back what the session wrote: from the label
    of the question [q] at position [n] it takes the number [n] and the
    question stripped, for every position whose decimal form stays within
    the limit on digits. *)
Theorem question_label_read_back n q n_blocks :
  (length (str_of_int n) <= INT_MAX_STR_DIGITS)%nat ->
  parse_question (question_label n q) n_blocks = inr (n, strip q).
Proof. apply parse_question_label. Qed.

Lemma question_label_read_back_witness :
  parse_question (question_label 12 (lit "Why do you want to work here? ")) 3
  = inr (12, strip (lit "Why do you want to work here? ")).
Proof.
  apply (question_label_read_back 12 (lit "Why do you want to work here? ") 3).
  apply Nat.le_trans with 2%nat; [vm_compute; lia | unfold INT_MAX_STR_DIGITS; lia].
Defined.

(** ** The steps shown for a feedback text *)

Lemma drop_while_app_all p a b : forallb p a = true -> drop_while p (a ++ b) = drop_while p b.
Proof.
  induction a as [|c a IH]; [reflexivity|]. cbn [forallb app drop_while].
  intros H. apply andb_prop in H. destruct H as [-> Ha]. apply IH, Ha.
Qed.

Lemma drop_while_app_keep p a b :
  drop_while p a <> [] -> drop_while p (a ++ b) = drop_while p a ++ b.
Proof.
  induction a as [|c a IH]; cbn [app drop_while]; [congruence|].
  destruct (p c); [exact IH | reflexivity].
Qed.

Lemma rstrip_app_space s w : forallb isspace w = true -> rstrip (s ++ w) = rstrip s.
Proof.
  intros H. unfold rstrip. rewrite rev_app_distr, drop_while_app_all; [reflexivity|].
  rewrite forallb_forall in *. intros c Hc. apply H, in_rev, Hc.
Qed.

(** Whitespace after a text does not change what [strip] makes of it. *)
Lemma strip_app_space s w : forallb isspace w = true -> strip (s ++ w) = strip s.
Proof.
  intros H. unfold strip, lstrip.
  destruct (drop_while isspace s) as [|c r] eqn:E.
  - apply drop_while_nil_all in E. rewrite drop_while_app_all by exact E.
    rewrite (drop_while_all _ _ H). reflexivity.
  - rewrite drop_while_app_keep by (rewrite E; discriminate).
    rewrite E. apply rstrip_app_space, H.
Qed.

Lemma collect_lines_spec raw : forall lines,
  collect_lines raw lines = lines ++ map strip (filter (fun ln => truthy (strip ln)) raw).
Proof.
  induction raw as [|ln raw IH]; intros lines; cbn [collect_lines filter].
  - rewrite app_nil_r. reflexivity.
  - destruct (truthy (strip ln)); cbn [negb map]; rewrite IH; [|reflexivity].
    rewrite <- app_assoc. reflexivity.
Qed.

(** The loop of the application keeps the lines that the engine's list
    comprehension keeps. *)
Lemma collect_lines_stripped_lines text :
  collect_lines (splitlines text) [] = stripped_lines text.
Proof. rewrite collect_lines_spec. reflexivity. Qed.

Lemma split_from_pieces (f : char -> bool) sep s : forall cur,
  forallb f cur = true -> forallb f s = true ->
  Forall (fun p => forallb f p = true) (split_from sep cur s).
Proof.
  induction s as [|c s IH]; intros cur Hcur Hs; cbn [split_from].
  - repeat constructor. exact Hcur.
  - cbn [forallb] in Hs. apply andb_prop in Hs. destruct Hs as [Hc Hs].
    destruct (c =? sep)%N.
    + constructor; [exact Hcur | apply IH; [reflexivity | exact Hs]].
    + apply IH; [|exact Hs]. rewrite forallb_app, Hcur. cbn. rewrite Hc. reflexivity.
Qed.

Lemma char_in_app sep (a b : str) : char_in sep (a ++ b) = char_in sep a || char_in sep b.
Proof. unfold char_in. apply existsb_app. Qed.

Lemma char_in_one sep c : char_in sep [c] = (sep =? c)%N.
Proof. unfold char_in. cbn. apply orb_false_r. Qed.

Lemma split_from_no_sep sep s : forall cur,
  char_in sep cur = false ->
  Forall (fun p => char_in sep p = false) (split_from sep cur s).
Proof.
  induction s as [|c s IH]; intros cur Hcur; cbn [split_from].
  - repeat constructor. exact Hcur.
  - destruct (N.eqb_spec c sep) as [E|E].
    + constructor; [exact Hcur | apply IH; reflexivity].
    + apply IH. rewrite char_in_app, Hcur, char_in_one.
      apply N.eqb_neq. congruence.
Qed.

Lemma split_from_length_pos sep s : forall cur, (1 <= length (split_from sep cur s))%nat.
Proof.
  induction s as [|c s IH]; intros cur; cbn [split_from]; [simpl; lia|].
  destruct (c =? sep)%N; [simpl; lia | apply IH].
Qed.

Lemma split_from_length_sep sep s : forall cur,
  char_in sep s = true -> (2 <= length (split_from sep cur s))%nat.
Proof.
  induction s as [|c s IH]; intros cur H; [discriminate|].
  cbn [split_from]. destruct (N.eqb_spec c sep) as [E|E].
  - pose proof (split_from_length_pos sep s []). simpl. lia.
  - apply IH. unfold char_in in *. cbn [existsb] in H.
    apply orb_prop in H. destruct H as [H|H]; [|exact H].
    apply N.eqb_eq in H. congruence.
Qed.

Lemma char_in_strip sep p : char_in sep p = false -> char_in sep (strip p) = false.
Proof.
  intros H. destruct (strip_split p) as (pre & post & E & _).
  rewrite E in H. rewrite !char_in_app in H.
  apply orb_false_elim in H. destruct H as [_ H].
  apply orb_false_elim in H. tauto.
Qed.

(** X11: whatever the feedback text, every step that the application
    shows is tidy: not empty, without whitespace around it and on one
    line. *)
Theorem feedback_steps_tidy text : Forall tidy_line (feedback_steps text).
Proof.
  unfold feedback_steps. rewrite collect_lines_stripped_lines.
  pose proof (stripped_lines_tidy text) as Ht.
  destruct (stripped_lines text) as [|line [|l2 ls]]; try exact Ht.
  destruct (1 <? len (split DOT line)); [|exact Ht].
  apply stripped_filter_tidy.
  inversion Ht as [|? ? (_ & _ & Hlb) _]. subst.
  apply (split_from_pieces (fun c => negb (is_linebreak c)) DOT line []);
    [reflexivity | exact Hlb].
Qed.

(** X12: a feedback text with a single line that is not blank and that
    holds a full stop is cut at every full stop, also inside a number: the
    steps are the stripped pieces that are not blank, and none holds a full
    stop. *)
Theorem feedback_steps_cuts_paragraph text line :
  stripped_lines text = [line] ->
  char_in DOT line = true ->
  feedback_steps text
  = map strip (filter (fun p => truthy (strip p)) (split DOT line))
  /\ Forall (fun p => char_in DOT p = false) (feedback_steps text).
Proof.
  intros Hline Hdot. unfold feedback_steps.
  rewrite collect_lines_stripped_lines, Hline.
  pose proof (split_from_length_sep DOT line [] Hdot) as Hlen.
  replace (1 <? len (split DOT line)) with true
    by (symmetry; apply Z.ltb_lt; unfold len, split; lia).
  split; [reflexivity|].
  pose proof (split_from_no_sep DOT line [] eq_refl) as Hns.
  fold (split DOT line) in Hns.
  induction Hns as [|p ps Hp Hps IH]; [constructor|].
  cbn [filter]. destruct (truthy (strip p)); [|exact IH].
  cbn [map]. constructor; [apply char_in_strip, Hp | exact IH].
Qed.

Lemma feedback_steps_cuts_paragraph_witness :
  feedback_steps (lit "Good answer. Score 7.5 of 10. ")
  = map strip (filter (fun p => truthy (strip p))
                 (split DOT (lit "Good answer. Score 7.5 of 10.")))
  /\ Forall (fun p => char_in DOT p = false)
       (feedback_steps (lit "Good answer. Score 7.5 of 10. ")).
Proof.
  apply (feedback_steps_cuts_paragraph (lit "Good answer. Score 7.5 of 10. ")
           (lit "Good answer. Score 7.5 of 10.")); reflexivity.
Defined.

(** Unless the backend call raises, the feedback is tidy lines joined by
    newlines. *)
Lemma feedback_text_lines MODEL question answer :
  (forall (model : backend) e,
     MODEL = Some model -> model (feedback_prompt question answer) <> Raises e) ->
  exists lines,
    Forall tidy_line lines /\ lines <> []
    /\ value (get_feedback_on_answer MODEL question answer) = join NL lines.
Proof.
  intros Hraise. unfold get_feedback_on_answer.
  destruct (negb (truthy answer) || negb (truthy (strip answer))).
  - exists [NO_ANSWER]. repeat split; try discriminate. repeat constructor; discriminate.
  - destruct MODEL as [model|]; cbn [value].
    + destruct (model (feedback_prompt question answer)) as [t|e] eqn:Hm.
      * pose proof (stripped_lines_tidy (response_text t)) as Ht.
        destruct (stripped_lines (response_text t)) as [|l ls] eqn:E; cbn [truthy negb].
        -- exists [lit "No feedback returned. Try again."].
           repeat split; try discriminate. repeat constructor; discriminate.
        -- exists (l :: ls). repeat split; [exact Ht | discriminate].
      * exfalso. apply (Hraise model e eq_refl Hm).
    + destruct (len (strip answer) <? 30).
      * exists LOW_FEEDBACK. repeat split; try discriminate.
        repeat constructor; discriminate.
      * exists HIGH_FEEDBACK. repeat split; try discriminate.
        repeat constructor; discriminate.
Qed.

Lemma feedback_steps_of_lines lines :
  Forall tidy_line lines -> (2 <= length lines)%nat ->
  feedback_steps (join NL lines) = lines.
Proof.
  intros Ht Hl. unfold feedback_steps.
  rewrite collect_lines_stripped_lines. unfold stripped_lines.
  rewrite splitlines_join, stripped_filter_fix by exact Ht.
  destruct lines as [|l [|l2 ls]]; simpl in Hl; try lia. reflexivity.
Qed.

(** X13: when the feedback of the engine has two lines or more and does not
    report a raised exception, the steps that the application shows are
    exactly its lines: nothing is cut, dropped or changed. *)
Theorem shown_steps_are_feedback_lines MODEL question answer :
  (forall (model : backend) e,
     MODEL = Some model -> model (feedback_prompt question answer) <> Raises e) ->
  (2 <= length (splitlines (value (get_feedback_on_answer MODEL question answer))))%nat ->
  feedback_steps (value (get_feedback_on_answer MODEL question answer))
  = splitlines (value (get_feedback_on_answer MODEL question answer)).
Proof.
  intros Hraise. destruct (feedback_text_lines MODEL question answer Hraise)
    as (lines & Ht & _ & ->).
  rewrite splitlines_join by exact Ht. intros Hl.
  apply feedback_steps_of_lines; assumption.
Qed.

Lemma shown_steps_are_feedback_lines_witness :
  feedback_steps (value (get_feedback_on_answer None (lit "Why?") DEMO_ANSWER))
  = splitlines (value (get_feedback_on_answer None (lit "Why?") DEMO_ANSWER)).
Proof.
  apply (shown_steps_are_feedback_lines None (lit "Why?") DEMO_ANSWER);
    [discriminate | vm_compute; lia].
Defined.

(** ** [on_get_feedback] *)

Lemma strip_text_get content : strip (text_get content) = strip content.
Proof. apply strip_app_space. reflexivity. Qed.

(** X14: with an answer box that is empty or blank, [on_get_feedback] only
    opens the warning: the engine is not called, nothing is sent to the
    backend and the block stays as it is. *)
Theorem on_get_feedback_blank_answer MODEL b :
  forallb isspace (answer_box b) = true ->
  on_get_feedback MODEL b
  = Run [] (Some (ShowWarning (lit "Empty answer") (lit "Please write an answer first.")), b).
Proof.
  intros H. unfold on_get_feedback. rewrite strip_text_get.
  apply strip_nil_iff in H. rewrite H. reflexivity.
Qed.

Lemma on_get_feedback_blank_answer_witness :
  on_get_feedback (Some failing_backend) (Block 1 (lit "Why?") (lit "  " ++ NL) (lit "old"))
  = Run [] (Some (ShowWarning (lit "Empty answer") (lit "Please write an answer first.")),
            Block 1 (lit "Why?") (lit "  " ++ NL) (lit "old")).
Proof.
  apply (on_get_feedback_blank_answer (Some failing_backend)
           (Block 1 (lit "Why?") (lit "  " ++ NL) (lit "old"))).
  reflexivity.
Defined.

(** X15: without a backend and with an answer that is not blank,
    [on_get_feedback] opens no dialog and fills the feedback area with the
    stripped answer and the five lines of the heuristic feedback, chosen by
    the length of the stripped answer.  These lines already start with their
    position and are shown with it once more ("1) 1) Score: ..."); the
    question, its number and the answer box are left as they are. *)
Theorem on_get_feedback_numbers_twice b :
  forallb isspace (answer_box b) = false ->
  let r := on_get_feedback None b in
  let answer := strip (answer_box b) in
  let lines := if len answer <? 30 then LOW_FEEDBACK else HIGH_FEEDBACK in
  r = Run [] (None, Block (q_index b) (q_text b) (answer_box b)
                          (shown_feedback answer lines))
  /\ numbered_from 1 lines = true
  /\ shown_feedback answer lines
     = lit "Your Answer:" ++ NL ++ answer ++ NL ++ NL
       ++ lit "Feedback (step-by-step):" ++ NL
       ++ concat (map (fun '(i, ln) => str_of_int i ++ lit ") " ++ ln ++ NL)
                      (enumerate 1 lines)).
Proof.
  intros H. apply nonblank_strip in H. destruct H as [_ Hs].
  cbv zeta. split; [|split].
  - unfold on_get_feedback. rewrite strip_text_get.
    rewrite (truthy_nonempty _ Hs). cbn [negb].
    unfold get_feedback_on_answer. rewrite strip_idem.
    rewrite (truthy_nonempty _ Hs). cbn [negb orb sent value].
    destruct (len (strip (answer_box b)) <? 30); reflexivity.
  - destruct (len (strip (answer_box b)) <? 30); reflexivity.
  - unfold shown_feedback. rewrite strip_idem, <- !app_assoc. reflexivity.
Qed.

Lemma on_get_feedback_numbers_twice_witness :
  on_get_feedback None (Block 2 (lit "Why?") (lit " Because. ") [])
  = Run [] (None, Block 2 (lit "Why?") (lit " Because. ")
                    (lit "Your Answer:" ++ NL ++ lit "Because." ++ NL ++ NL
                     ++ lit "Feedback (step-by-step):" ++ NL
                     ++ lit "1) 1) Score: 40/100" ++ NL
                     ++ lit "2) 2) Strength: You tried to answer quickly." ++ NL
                     ++ lit "3) 3) Improve: Add one concrete example (what you did)." ++ NL
                     ++ lit "4) 4) Improve: Add the result (what changed because of your action)." ++ NL
                     ++ lit "5) 5) Model answer (example): I led X project where I did Y and achieved Z." ++ NL)).
Proof.
  apply (on_get_feedback_numbers_twice (Block 2 (lit "Why?") (lit " Because. ") [])).
  reflexivity.
Defined.

(** ** The application *)


Lemma numbered_blocks_cons f start q qs :
  numbered_blocks f start (q :: qs)
  = new_block start (f q) :: numbered_blocks f (start + 1) qs.
Proof. reflexivity. Qed.








(** X17: without a session and with a job title that is empty or blank,
    "Next Question" and "Get All Questions" only open the warning: no
    session is made, no background task is started, nothing is sent to the
    backend and the application stays as it is. *)
Theorem blank_job_title_only_warns fuel MODEL a :
  session a = None ->
  forallb isspace (job_entry a) = true ->
  on_next_question fuel MODEL a = Run [] (Some (Handled [MISSING_JOB_TITLE] a None))
  /\ on_get_all_questions a = (Handled [MISSING_JOB_TITLE] a None, None).
Proof.
  intros Hs Hj. apply strip_nil_iff in Hj.
  unfold on_next_question, on_get_all_questions, ensure_session.
  rewrite Hs, Hj. split; reflexivity.
Qed.

Lemma blank_job_title_only_warns_witness :
  on_next_question 0 (Some failing_backend) (App (lit "  ") (lit "Ready") [] None)
  = Run [] (Some (Handled [MISSING_JOB_TITLE] (App (lit "  ") (lit "Ready") [] None) None))
  /\ on_get_all_questions (App (lit "  ") (lit "Ready") [] None)
     = (Handled [MISSING_JOB_TITLE] (App (lit "  ") (lit "Ready") [] None) None, None).
Proof.
  apply (blank_job_title_only_warns 0 (Some failing_backend)
           (App (lit "  ") (lit "Ready") [] None));
    reflexivity.
Defined.

Lemma populate_blocks questions : forall start blocks,
  fold_left (fun bs '(i, q) => bs ++ [new_block i q]) (enumerate start questions) blocks
  = blocks ++ numbered_blocks (fun q => q) start questions.
Proof.
  induction questions as [|q qs IH]; intros start blocks; cbn [enumerate fold_left].
  - unfold numbered_blocks. cbn. rewrite app_nil_r. reflexivity.
  - rewrite IH, numbered_blocks_cons, <- app_assoc. reflexivity.
Qed.

Lemma populate_all_questions_eq a questions :
  _populate_all_questions a questions
  = App (job_entry a) (str_of_int (len questions) ++ lit " questions loaded")
        (numbered_blocks (fun q => q) 1 questions) None.
Proof.
  unfold _populate_all_questions, clear_all. cbn [job_entry q_blocks session].
  rewrite populate_blocks. reflexivity.
Qed.

(** X18: when the task of "Get All Questions" ends for a job title that is
    not empty, the application holds exactly ten blocks, numbered 1 to 10
    and holding the questions as [generate_questions] returned them, in
    order; the blocks it had and its session are gone, and the status says
    "10 questions loaded". *)
Theorem get_all_questions_loads_ten fuel MODEL job a a' :
  job <> [] ->
  value (all_questions_task fuel MODEL job a) = Some a' ->
  exists questions,
    value (generate_questions fuel MODEL job 10) = Some questions
    /\ length questions = 10%nat
    /\ a' = App (job_entry a) (lit "10 questions loaded")
                (numbered_blocks (fun q => q) 1 questions) None.
Proof.
  intros Hj. unfold all_questions_task. cbn [value].
  destruct (value (generate_questions fuel MODEL job 10)) as [qs|] eqn:E; [|discriminate].
  intros [= <-]. exists qs. split; [reflexivity|].
  pose proof (generate_questions_count fuel MODEL job 10 qs Hj ltac:(lia) E) as Hl.
  split; [unfold len in Hl; lia|].
  rewrite populate_all_questions_eq, Hl. reflexivity.
Qed.

Lemma get_all_questions_loads_ten_witness :
  exists questions,
    value (generate_questions 0 None (lit "Data Scientist") 10) = Some questions
    /\ length questions = 10%nat
    /\ _populate_all_questions new_app FALLBACK_QUESTIONS
       = App (job_entry new_app) (lit "10 questions loaded")
             (numbered_blocks (fun q => q) 1 questions) None.
Proof.
  apply (get_all_questions_loads_ten 0 None (lit "Data Scientist") new_app
           (_populate_all_questions new_app FALLBACK_QUESTIONS));
    [discriminate | reflexivity].
Defined.



(** ** The stand-in session of app_tk.py *)

(** X20: the stand-in session of the application returns from
    [next_question] what the engine's session returns on the same questions
    and cursor, and leaves the cursor where the engine leaves it, except
    when the call raises IndexError: then the stand-in has already moved its
    cursor. *)
Theorem standin_next_question_agrees title n questions index :
  let engine := next_question (Session title n questions index) in
  let standin := standin_next_question (StandIn questions index) in
  fst standin = fst engine
  /\ standin_questions (snd standin) = _questions (snd engine)
  /\ (fst engine <> IndexError -> standin_index (snd standin) = _index (snd engine))
  /\ (fst engine = IndexError ->
      standin_index (snd standin) = index + 1 /\ _index (snd engine) = index).
Proof.
  cbv zeta. unfold next_question, standin_next_question.
  cbn [_index _questions standin_index standin_questions].
  destruct (index >=? len questions); [cbn; repeat split; congruence|].
  replace (index + 1 - 1) with index by lia.
  destruct (getitem questions index); cbn; repeat split; congruence.
Qed.

(** ** Parsing a parsed list again *)

(** What the loop returns keeps the line free of line boundaries. *)
Lemma strip_markers_no_linebreak fuel ln r :
  strip ln = ln -> no_linebreak ln = true ->
  strip_markers fuel ln = Some r -> no_linebreak r = true.
Proof.
  intros Hs Hlb Hr. apply strip_markers_sound in Hr; [|exact Hs].
  destruct Hr as (_ & _ & pre & E & _). rewrite E in Hlb.
  eapply forallb_app_r. exact Hlb.
Qed.

Lemma clean_lines_settled fuel raw : forall acc res,
  Forall (fun l => no_linebreak l = true) raw ->
  Forall (fun r => tidy_line r /\ has_leading_marker r = false) acc ->
  clean_lines fuel (map strip (filter (fun ln => truthy (strip ln)) raw)) acc = Some res ->
  Forall (fun r => tidy_line r /\ has_leading_marker r = false) res.
Proof.
  induction raw as [|l raw IH]; intros acc res Hraw Hacc; cbn [filter map clean_lines].
  - intros [= <-]. exact Hacc.
  - inversion Hraw as [|? ? Hl Hrest]; subst.
    destruct (strip l) as [|c s] eqn:El; cbn [truthy]; [apply IH; assumption|].
    cbn [map clean_lines]. rewrite El.
    destruct (strip_markers fuel (c :: s)) as [r|] eqn:Er; [|discriminate].
    assert (Hs : strip (c :: s) = c :: s) by (rewrite <- El; apply strip_idem).
    assert (Hlb : no_linebreak (c :: s) = true) by (rewrite <- El; apply forallb_strip, Hl).
    pose proof (strip_markers_no_linebreak _ _ _ Hs Hlb Er) as Hrlb.
    apply strip_markers_sound in Er; [|exact Hs]. destruct Er as (Hrs & Hrm & _).
    destruct r as [|c' r']; cbn [truthy]; apply IH; try assumption.
    apply Forall_app. split; [exact Hacc|].
    repeat constructor; try assumption. discriminate.
Qed.

Lemma clean_lines_fixed fuel lines : forall acc,
  Forall (fun r => tidy_line r /\ has_leading_marker r = false) lines ->
  clean_lines fuel lines acc = Some (acc ++ lines).
Proof.
  induction lines as [|l lines IH]; intros acc H; cbn [clean_lines].
  - rewrite app_nil_r. reflexivity.
  - inversion H as [|? ? ((Hne & _) & Hm) Hrest]; subst.
    rewrite strip_markers_no_marker by exact Hm.
    rewrite (truthy_nonempty _ Hne), IH by exact Hrest.
    rewrite <- app_assoc. reflexivity.
Qed.

(** X21: parsing is idempotent: the questions that the parser returns for
    a text, joined by newlines and parsed again, with any fuel, come back
    unchanged. *)
Theorem clean_list_from_text_idempotent fuel text cleaned fuel' :
  _clean_list_from_text fuel text = Some cleaned ->
  _clean_list_from_text fuel' (join NL cleaned) = Some cleaned.
Proof.
  unfold _clean_list_from_text at 1. unfold stripped_lines. intros H.
  apply clean_lines_settled in H;
    [|apply splitlines_from_no_linebreak; reflexivity | constructor].
  assert (Ht : Forall tidy_line cleaned).
  { eapply Forall_impl; [|exact H]. cbv beta. tauto. }
  unfold _clean_list_from_text, stripped_lines.
  rewrite splitlines_join, stripped_filter_fix by exact Ht.
  apply (clean_lines_fixed fuel' cleaned []). exact H.
Qed.

Lemma clean_list_from_text_idempotent_witness :
  _clean_list_from_text 0 (join NL [lit "Tell me about yourself."; lit "Why?"])
  = Some [lit "Tell me about yourself."; lit "Why?"].
Proof.
  apply (clean_list_from_text_idempotent 1
           (lit "1. Tell me about yourself." ++ NL ++ NL ++ lit " - 2) Why?" ++ NL ++ lit "***")
           [lit "Tell me about yourself."; lit "Why?"] 0).
  reflexivity.
Defined.

(** ** When the parser does not return *)

Lemma foreign_digit_stuck ln :
  strip ln = ln -> starts_with_foreign_digit ln = true ->
  has_leading_marker ln = true /\ strip_markers_once ln = ln.
Proof.
  destruct ln as [|c r]; [discriminate|]. cbn [starts_with_foreign_digit].
  intros Hs H. apply andb_prop in H. destruct H as [Hd Hm].
  apply negb_true_iff in Hm. split.
  - cbn [has_leading_marker]. rewrite Hd. reflexivity.
  - unfold strip_markers_once, lstrip_chars. cbn [drop_while]. rewrite Hm. exact Hs.
Qed.

Lemma clean_lines_hang fuel lines : forall acc,
  Forall (fun l => strip l = l) lines ->
  existsb starts_with_foreign_digit lines = true ->
  clean_lines fuel lines acc = None.
Proof.
  induction lines as [|l lines IH]; intros acc Hs H; [discriminate|].
  inversion Hs as [|? ? Hl Hrest]; subst.
  cbn [existsb] in H. cbn [clean_lines].
  destruct (starts_with_foreign_digit l) eqn:El.
  - destruct (foreign_digit_stuck l Hl El) as [Hm Hfix].
    rewrite strip_markers_diverges by assumption. reflexivity.
  - destruct (strip_markers fuel l); [|reflexivity]. apply IH; assumption.
Qed.

Lemma stripped_lines_stripped text : Forall (fun l => strip l = l) (stripped_lines text).
Proof.
  eapply Forall_impl; [|apply stripped_lines_tidy]. cbv beta. unfold tidy_line. tauto.
Qed.

(** X22: when a line of the backend's response starts, after whitespace,
    with a digit character other than 0..9, [generate_questions] on a
    non-empty title does not return, whatever the title, the count, the
    other lines and the fuel; nor does the session constructor, which asks
    for the same count when that is at least 1. *)
Theorem generate_questions_hangs_on_foreign_digit fuel (model : backend) title n t :
  title <> [] ->
  model (questions_prompt title n) = Text t ->
  existsb starts_with_foreign_digit (stripped_lines (response_text t)) = true ->
  value (generate_questions fuel (Some model) title n) = None
  /\ (1 <= n -> value (new_session fuel (Some model) title n) = None).
Proof.
  intros Ht Hm Hd.
  assert (H : value (generate_questions fuel (Some model) title n) = None).
  { apply (generate_questions_text_hangs fuel model title n t Ht Hm).
    apply clean_lines_hang; [apply stripped_lines_stripped | exact Hd]. }
  split; [exact H|]. intros Hn. unfold new_session. cbn [value].
  rewrite Z.max_r by exact Hn. rewrite H. reflexivity.
Qed.

Lemma generate_questions_hangs_on_foreign_digit_witness :
  value (generate_questions 1000
           (Some (fun _ => Text (Some (lit "1. Why?" ++ NL ++ [32; 178]%N ++ lit " Tell me."))))
           (lit "Data Scientist") 3) = None
  /\ (1 <= 3 ->
      value (new_session 1000
               (Some (fun _ => Text (Some (lit "1. Why?" ++ NL ++ [32; 178]%N ++ lit " Tell me."))))
               (lit "Data Scientist") 3) = None).
Proof.
  apply (generate_questions_hangs_on_foreign_digit 1000
           (fun _ => Text (Some (lit "1. Why?" ++ NL ++ [32; 178]%N ++ lit " Tell me.")))
           (lit "Data Scientist") 3
           (Some (lit "1. Why?" ++ NL ++ [32; 178]%N ++ lit " Tell me.")));
    [discriminate | reflexivity | reflexivity].
Defined.

(** The loop on a stripped line of at most [n] characters: a result within
    [n] passes, or none ever. *)
Lemma strip_markers_bounded n : forall ln,
  (length ln <= n)%nat -> strip ln = ln ->
  (exists r, forall fuel, (n <= fuel)%nat -> strip_markers fuel ln = Some r)
  \/ (forall fuel, strip_markers fuel ln = None).
Proof.
  induction n as [|n IH]; intros ln Hl Hs.
  - left. destruct ln; [|simpl in Hl; lia]. exists []. intros fuel _.
    apply strip_markers_no_marker. reflexivity.
  - destruct (has_leading_marker ln) eqn:Hm.
    2:{ left. exists ln. intros fuel _. apply strip_markers_no_marker, Hm. }
    destruct (strip_markers_once_split ln) as (pre & E & _).
    { rewrite <- Hs. apply rstripped_strip. }
    destruct pre as [|c pre].
    + right. apply strip_markers_diverges; [exact Hm | symmetry; exact E].
    + assert (Hlen : (length (strip_markers_once ln) <= n)%nat).
      { rewrite E in Hl at 1. rewrite length_app in Hl. simpl in Hl. lia. }
      assert (Hstr : strip (strip_markers_once ln) = strip_markers_once ln)
        by apply strip_idem.
      destruct (IH _ Hlen Hstr) as [(r & Hr) | Hnone].
      * left. exists r. intros [|fuel] Hf; [lia|].
        cbn [strip_markers]. rewrite Hm. apply Hr. lia.
      * right. intros [|fuel]; cbn [strip_markers]; rewrite Hm; [reflexivity | apply Hnone].
Qed.

Lemma strip_markers_more_fuel fuel : forall ln r fuel',
  strip_markers fuel ln = Some r -> (fuel <= fuel')%nat -> strip_markers fuel' ln = Some r.
Proof.
  induction fuel as [|fuel IH]; intros ln r fuel'; cbn [strip_markers];
    destruct (has_leading_marker ln) eqn:Hm; try discriminate.
  - intros [= <-] _. apply strip_markers_no_marker, Hm.
  - intros Hr Hf. destruct fuel' as [|fuel']; [lia|].
    cbn [strip_markers]. rewrite Hm. apply IH; [exact Hr | lia].
  - intros [= <-] _. apply strip_markers_no_marker, Hm.
Qed.

Lemma clean_lines_bounded n lines : forall acc,
  Forall (fun l => strip l = l /\ (length l <= n)%nat) lines ->
  (exists res, forall fuel, (n <= fuel)%nat -> clean_lines fuel lines acc = Some res)
  \/ (forall fuel, clean_lines fuel lines acc = None).
Proof.
  induction lines as [|l lines IH]; intros acc H.
  - left. exists acc. reflexivity.
  - inversion H as [|? ? [Hs Hl] Hrest]; subst.
    destruct (strip_markers_bounded n l Hl Hs) as [(r & Hr) | Hnone].
    + destruct (IH (if truthy r then acc ++ [r] else acc) Hrest) as [(res & Hres) | Hn].
      * left. exists res. intros fuel Hf. cbn [clean_lines]. rewrite Hr by exact Hf.
        apply Hres, Hf.
      * right. intros fuel. cbn [clean_lines].
        destruct (strip_markers fuel l) as [r'|] eqn:E; [|reflexivity].
        apply (strip_markers_more_fuel fuel l r' (Nat.max n fuel)) in E; [|lia].
        rewrite Hr in E by lia. injection E as <-. apply Hn.
    + right. intros fuel. cbn [clean_lines]. rewrite Hnone. reflexivity.
Qed.

(** X23: the marker loop makes at most as many passes as the line has
    characters, or it never ends: on every text the parser either returns,
    with the same list for every fuel from the length of the text on, or
    returns for no fuel at all. *)
Theorem clean_list_from_text_returns_or_hangs text :
  (exists cleaned, forall fuel,
      (length text <= fuel)%nat -> _clean_list_from_text fuel text = Some cleaned)
  \/ (forall fuel, _clean_list_from_text fuel text = None).
Proof.
  unfold _clean_list_from_text. apply clean_lines_bounded.
  pose proof (stripped_lines_stripped text) as Hs.
  assert (Hl : Forall (fun l => (length l <= length text)%nat) (stripped_lines text)).
  { unfold stripped_lines. apply Forall_forall. intros l Hl.
    apply in_map_iff in Hl. destruct Hl as (raw & <- & Hraw).
    apply filter_In in Hraw. destruct Hraw as [Hraw _].
    assert (Hall : forallb (fun _ : char => true) text = true)
      by (clear; induction text; auto).
    pose proof (splitlines_from_lines (fun _ => true) text false [] eq_refl Hall) as Hsp.
    rewrite Forall_forall in Hsp. destruct (Hsp raw Hraw) as [_ Hlen].
    pose proof (strip_length raw). simpl in Hlen. lia. }
  rewrite Forall_forall in *. intros l Hin. split; auto.
Qed.
